(** * Lycée Charles de Gaulle API: the canteen menu and Pronote endpoints

    A shallow embedding of [main.py] and [schemas.py].

    - Python values (request bodies, stored documents) are the inductive
      [value]; a [dict] is a [gmap string value].
    - A Python exception is a value of [exn]; a computation that may raise
      has type [result A]; [try: ... except Exception as e: raise
      HTTPException(500, str(e))] is [try_except].
    - The clock ([datetime.utcnow()]) is an explicit argument [now].
    - The storage handle [db] is threaded through the handlers explicitly.
    - A string is the sequence of the bytes of its UTF-8 encoding. The
      parts of [datetime] the handlers call are modelled in [Module
      Datetime] as CPython 3.11 on glibc has them: [strptime] as the
      regular expression it builds for the format (with [\d] matching
      every Unicode decimal digit) followed by the range checks of [date],
      [strftime] with the year written without padding, and [date +
      timedelta] with its overflow past 9999-12-31.
    - A text Python builds, an exception message or the result of [str()],
      is a [text]: its characters where the code fixes them, and the
      call that makes it ([repr] of a string that needs escaping, [str] of
      a list or a dict, pydantic's text of a validation error) otherwise.
    - [database.py] is not among the sources; [Module Database] models it
      from the specification. *)

From Stdlib Require Import ZArith Ascii String DecimalString.
From Stdlib Require OrderedTypeEx.
From stdpp Require Import gmap strings list fin_maps.
From Equations Require Import Equations.

Set Warnings "-register-all".

(** ** Python values *)

Inductive value : Type :=
| VNone
| VBool (b : bool)
| VInt (z : Z)
| VStr (s : string)
| VObjectId (oid : N)
| VList (l : list value)
| VDict (d : gmap string value).

(** Truth value of an [Optional[str]]: [None] and [""] are false. *)
Definition truthy (o : option string) : bool :=
  match o with
  | Some (String _ _) => true
  | _ => false
  end.

(** ** Texts *)

Inductive text : Type :=
| Text (s : string)
| Repr (s : string)
| StrOf (v : value)
| ValidationText (title : string) (errors : list (list string * string))
| Cat (a b : text).

Coercion Text : string >-> text.

(** Concatenation; spelled-out texts are joined. *)
Definition cat (a b : text) : text :=
  match a, b with
  | Text x, Text y => Text (x +:+ y)
  | _, _ => Cat a b
  end.

(** A printable ASCII character other than the quote and the backslash. *)
Definition plain (c : ascii) : bool :=
  let n := N_of_ascii c in
  ((32 <=? n) && (n <=? 126) && negb (n =? 39) && negb (n =? 92))%N.

(** [repr(s)]: the string between single quotes when it is made of plain
    characters; otherwise the text is left as the call. *)
Definition repr (s : string) : text :=
  if forallb plain (list_ascii_of_string s) then Text ("'" +:+ s +:+ "'") else Repr s.

(** The name of the type of a value. *)
Definition type_name (v : value) : string :=
  match v with
  | VNone => "NoneType"
  | VBool _ => "bool"
  | VInt _ => "int"
  | VStr _ => "str"
  | VObjectId _ => "ObjectId"
  | VList _ => "list"
  | VDict _ => "dict"
  end.

Definition str_nat (n : nat) : string := NilEmpty.string_of_uint (Nat.to_uint n).
Definition str_Z (z : Z) : string := NilEmpty.string_of_int (Z.to_int z).

(** ** Exceptions and results *)

Inductive exn : Type :=
| ValueError (msg : text)
| TypeError (msg : text)
| IndexError (msg : text)
| OverflowError (msg : text)
| ValidationError (title : string) (errors : list (list string * string))
| StorageError (msg : text).

Definition result (A : Type) : Type := exn + A.

Definition ret {A} (x : A) : result A := inr x.
Definition raise {A} (e : exn) : result A := inl e.

Definition bind {A B} (m : result A) (k : A -> result B) : result B :=
  match m with
  | inl e => inl e
  | inr x => k x
  end.

Notation "x <- m ;; k" := (bind m (fun x => k))
  (at level 100, m at next level, right associativity).

(** [[f(x) for x in xs]]: the first exception aborts the comprehension. *)
Fixpoint comprehension {A B} (f : A -> result B) (xs : list A) : result (list B) :=
  match xs with
  | [] => ret []
  | x :: xs' => y <- f x ;; ys <- comprehension f xs' ;; ret (y :: ys)
  end.

(** [str(e)] *)
Definition str_exn (e : exn) : text :=
  match e with
  | ValueError msg | TypeError msg | IndexError msg
  | OverflowError msg | StorageError msg => msg
  | ValidationError title errors => ValidationText title errors
  end.

(** ** The parts of [datetime] used by the handlers *)

Module Datetime.

Local Open Scope Z_scope.

Definition MINYEAR : Z := 1.
Definition MAXYEAR : Z := 9999.

Record date : Type := mkdate { year : Z; month : Z; day : Z }.
(** Microseconds play no part in the handlers and are left out. *)
Record time : Type := mktime { hour : Z; minute : Z; second : Z }.
Record datetime : Type := mkdatetime { dt_date : date; dt_time : time }.
(** Only non-negative durations occur in [main.py]. *)
Record timedelta : Type := mktimedelta { td_days : Z; td_seconds : Z }.

Definition timedelta_of (days hours minutes : Z) : timedelta :=
  let s := hours * 3600 + minutes * 60 in
  {| td_days := days + s / 86400; td_seconds := s mod 86400 |}.

Definition is_leap (y : Z) : bool :=
  (y mod 4 =? 0) && (negb (y mod 100 =? 0) || (y mod 400 =? 0)).

Definition days_in_month (y m : Z) : Z :=
  match m with
  | 1 | 3 | 5 | 7 | 8 | 10 | 12 => 31
  | 4 | 6 | 9 | 11 => 30
  | 2 => if is_leap y then 29 else 28
  | _ => 0
  end.

Definition days_before_year (y : Z) : Z :=
  let y' := y - 1 in y' * 365 + y' / 4 - y' / 100 + y' / 400.

Definition year_length (y : Z) : Z := if is_leap y then 366 else 365.

(** Days of year [y] before the first day of month [m]. *)
Definition days_before_month (y m : Z) : Z :=
  fold_right Z.add 0 (map (days_in_month y) (map Z.of_nat (seq 1 (Z.to_nat (m - 1))))).

(** [date.toordinal()]: 0001-01-01 is day 1. *)
Definition toordinal (d : date) : Z :=
  days_before_year (year d) + days_before_month (year d) (month d) + day d.

(** The constructor [date(y, m, d)] with its range checks. *)
Definition date_new (y m d : Z) : result date :=
  if negb ((MINYEAR <=? y) && (y <=? MAXYEAR)) then
    raise (ValueError ("year " +:+ str_Z y +:+ " is out of range"))
  else if negb ((1 <=? m) && (m <=? 12)) then
    raise (ValueError "month must be in 1..12")
  else if negb ((1 <=? d) && (d <=? days_in_month y m)) then
    raise (ValueError "day is out of range for month")
  else ret (mkdate y m d).

(** The values a [date] object can hold. *)
Definition valid_date (d : date) : Prop :=
  MINYEAR <= year d <= MAXYEAR /\ 1 <= month d <= 12 /\
  1 <= day d <= days_in_month (year d) (month d).

(** Comparison of dates is that of the triples (year, month, day). *)
Definition date_ltb (a b : date) : bool :=
  (year a <? year b)
  || ((year a =? year b)
      && ((month a <? month b) || ((month a =? month b) && (day a <? day b)))).

Definition date_leb (a b : date) : bool := negb (date_ltb b a).

(** [d + timedelta(days=1)]: the day after [d]; past 9999-12-31 the
    addition raises [OverflowError]. *)
Definition next_day (d : date) : result date :=
  if day d <? days_in_month (year d) (month d) then
    ret (mkdate (year d) (month d) (day d + 1))
  else if month d <? 12 then ret (mkdate (year d) (month d + 1) 1)
  else if year d <? MAXYEAR then ret (mkdate (year d + 1) 1 1)
  else raise (OverflowError "date value out of range").

Fixpoint add_days (d : date) (n : nat) : result date :=
  match n with
  | O => ret d
  | S n' => d' <- next_day d ;; add_days d' n'
  end.

(** [date + timedelta] *)
Definition date_add (d : date) (td : timedelta) : result date :=
  add_days d (Z.to_nat (td_days td)).

(** [datetime.combine(d, t)] *)
Definition combine (d : date) (t : time) : datetime := mkdatetime d t.

(** [datetime + timedelta] *)
Definition datetime_add (dt : datetime) (td : timedelta) : result datetime :=
  let t := dt_time dt in
  let s := hour t * 3600 + minute t * 60 + second t + td_seconds td in
  d <- add_days (dt_date dt) (Z.to_nat (td_days td + s / 86400)) ;;
  let s' := s mod 86400 in
  ret (mkdatetime d (mktime (s' / 3600) (s' mod 3600 / 60) (s' mod 60))).

(** *** Formatting *)

Definition digit_char (n : Z) : ascii := ascii_of_N (Z.to_N (48 + n)).

Definition pad2 (n : Z) : string :=
  String (digit_char (n / 10 mod 10)) (String (digit_char (n mod 10)) "").

Definition pad4 (n : Z) : string :=
  String (digit_char (n / 1000 mod 10)) (String (digit_char (n / 100 mod 10)) (pad2 n)).

Definition pad3 (n : Z) : string := String (digit_char (n / 100 mod 10)) (pad2 n).

(** %Y as the C library writes it: the year of a date (1 to 9999) as a
    decimal number, without padding. *)
Definition year_text (y : Z) : string :=
  if y <? 10 then String (digit_char (y mod 10)) ""
  else if y <? 100 then pad2 y
  else if y <? 1000 then pad3 y
  else pad4 y.

(** [d.strftime("%Y-%m-%d")] *)
Definition strftime_Ymd (d : date) : string :=
  year_text (year d) +:+ "-" +:+ pad2 (month d) +:+ "-" +:+ pad2 (day d).

(** [d.isoformat()]: YYYY-MM-DD, the year padded to four digits. *)
Definition isoformat (d : date) : string :=
  pad4 (year d) +:+ "-" +:+ pad2 (month d) +:+ "-" +:+ pad2 (day d).

(** [dt.strftime("%H:%M")] *)
Definition strftime_HM (dt : datetime) : string :=
  pad2 (hour (dt_time dt)) +:+ ":" +:+ pad2 (minute (dt_time dt)).

(** *** Parsing

    [strptime] turns the format into a regular expression and matches it at
    the start of the input, with backtracking: a matcher returns every way
    to match a prefix, most preferred first, and the match found is the
    first one. *)

Definition matcher (A : Type) : Type := string -> list (A * string).

Definition m_ret {A} (x : A) : matcher A := fun s => [(x, s)].

Definition m_bind {A B} (p : matcher A) (k : A -> matcher B) : matcher B :=
  fun s => concat (map (fun xr => k (fst xr) (snd xr)) (p s)).

Definition m_alt {A} (p q : matcher A) : matcher A := fun s => p s ++ q s.

Definition in_range (lo hi : ascii) (c : ascii) : bool :=
  ((N_of_ascii lo <=? N_of_ascii c) && (N_of_ascii c <=? N_of_ascii hi))%N.

(** A character class [[lo-hi]] of digits; the result is the digit's value. *)
Definition m_digit (lo hi : ascii) : matcher Z :=
  fun s =>
    match s with
    | String c r => if in_range lo hi c then [(Z.of_N (N_of_ascii c) - 48, r)] else []
    | EmptyString => []
    end.

Definition m_char (c : ascii) : matcher unit :=
  fun s =>
    match s with
    | String c' r => if Ascii.eqb c c' then [(tt, r)] else []
    | EmptyString => []
    end.

Notation "x <~ p ;; k" := (m_bind p (fun x => k))
  (at level 100, p at next level, right associativity).

(** The continuation byte [10xxxxxx] of a UTF-8 sequence: its six bits. *)
Definition continuation (c : ascii) : option N :=
  let n := N_of_ascii c in
  if ((128 <=? n) && (n <? 192))%N then Some (n - 128)%N else None.

(** The continuation bytes at the head of [s], [k] of them, added to [acc]. *)
Fixpoint continuations (k : nat) (acc : N) (s : string) : option (N * string) :=
  match k with
  | O => Some (acc, s)
  | S k' =>
      match s with
      | String c r =>
          match continuation c with
          | Some x => continuations k' (acc * 64 + x)%N r
          | None => None
          end
      | EmptyString => None
      end
  end.

(** The first character of a string: its code point and the rest. *)
Definition decode (s : string) : option (N * string) :=
  match s with
  | String c r =>
      let n := N_of_ascii c in
      if (n <? 128)%N then Some (n, r)
      else if (n <? 192)%N then None
      else if (n <? 224)%N then continuations 1 (n - 192)%N r
      else if (n <? 240)%N then continuations 2 (n - 224)%N r
      else if (n <? 248)%N then continuations 3 (n - 240)%N r
      else None
  | EmptyString => None
  end.

(** The code points of the digit zero of each run of ten decimal digits
    (general category Nd) of Unicode 14.0, the version of CPython 3.11. *)
Definition decimal_zeros : list N :=
  [ 0x30; 0x660; 0x6f0; 0x7c0; 0x966; 0x9e6; 0xa66; 0xae6; 0xb66; 0xbe6; 0xc66;
    0xce6; 0xd66; 0xde6; 0xe50; 0xed0; 0xf20; 0x1040; 0x1090; 0x17e0; 0x1810;
    0x1946; 0x19d0; 0x1a80; 0x1a90; 0x1b50; 0x1bb0; 0x1c40; 0x1c50; 0xa620;
    0xa8d0; 0xa900; 0xa9d0; 0xa9f0; 0xaa50; 0xabf0; 0xff10; 0x104a0; 0x10d30;
    0x11066; 0x110f0; 0x11136; 0x111d0; 0x112f0; 0x11450; 0x114d0; 0x11650;
    0x116c0; 0x11730; 0x118e0; 0x11950; 0x11c50; 0x11d50; 0x11da0; 0x16a60;
    0x16ac0; 0x16b50; 0x1d7ce; 0x1d7d8; 0x1d7e2; 0x1d7ec; 0x1d7f6; 0x1e140;
    0x1e2f0; 0x1e950; 0x1fbf0 ]%N.

(** The value of a decimal digit, in any script. *)
Definition decimal (cp : N) : option Z :=
  match List.find (fun z => (z <=? cp) && (cp <? z + 10))%N decimal_zeros with
  | Some z => Some (Z.of_N (cp - z))
  | None => None
  end.

(** [\d]: a decimal digit; the result is its value, as [int()] reads it. *)
Definition m_d : matcher Z :=
  fun s =>
    match decode s with
    | Some (cp, r) =>
        match decimal cp with
        | Some v => [(v, r)]
        | None => []
        end
    | None => []
    end.

(** Two digits. *)
Definition m_pair (p q : matcher Z) : matcher Z :=
  x <~ p ;; y <~ q ;; m_ret (10 * x + y).

(** Two digits, the first in [[a-b]] and the second in [[c-d]]. *)
Definition m_two (a b c d : ascii) : matcher Z := m_pair (m_digit a b) (m_digit c d).

(** %Y: [\d\d\d\d] *)
Definition re_Y : matcher Z :=
  a <~ m_d ;; b <~ m_d ;; c <~ m_d ;; d <~ m_d ;;
  m_ret (1000 * a + 100 * b + 10 * c + d).

(** %m: [1[0-2]|0[1-9]|[1-9]] *)
Definition re_m : matcher Z :=
  m_alt (m_two "1" "1" "0" "2") (m_alt (m_two "0" "0" "1" "9") (m_digit "1" "9")).

(** %d: [3[0-1]|[1-2]\d|0[1-9]|[1-9]| [1-9]] *)
Definition re_d : matcher Z :=
  m_alt (m_two "3" "3" "0" "1")
    (m_alt (m_pair (m_digit "1" "2") m_d)
       (m_alt (m_two "0" "0" "1" "9")
          (m_alt (m_digit "1" "9") (_ <~ m_char " " ;; m_digit "1" "9")))).

(** %H: [2[0-3]|[0-1]\d|\d] *)
Definition re_H : matcher Z :=
  m_alt (m_two "2" "2" "0" "3") (m_alt (m_pair (m_digit "0" "1") m_d) m_d).

(** %M: [[0-5]\d|\d] *)
Definition re_M : matcher Z :=
  m_alt (m_pair (m_digit "0" "5") m_d) m_d.

Definition re_Ymd : matcher (Z * Z * Z) :=
  y <~ re_Y ;; _ <~ m_char "-" ;; m <~ re_m ;; _ <~ m_char "-" ;; d <~ re_d ;;
  m_ret (y, m, d).

Definition re_HM : matcher (Z * Z) :=
  h <~ re_H ;; _ <~ m_char ":" ;; m <~ re_M ;; m_ret (h, m).

(** The two ways [strptime] rejects its input before building the value. *)
Definition re_match {A} (re : matcher A) (data format : string) : result A :=
  match re data with
  | [] =>
      raise (ValueError (cat "time data "
                           (cat (repr data) (cat " does not match format " (repr format)))))
  | (x, rest) :: _ =>
      match rest with
      | EmptyString => ret x
      | _ => raise (ValueError ("unconverted data remains: " +:+ rest))
      end
  end.

(** [datetime.strptime(s, "%Y-%m-%d").date()] *)
Definition strptime_Ymd (s : string) : result date :=
  ymd <- re_match re_Ymd s "%Y-%m-%d" ;;
  let '(y, m, d) := ymd in date_new y m d.

(** [datetime.strptime(s, "%H:%M").time()] *)
Definition strptime_HM (s : string) : result time :=
  hm <- re_match re_HM s "%H:%M" ;;
  let '(h, m) := hm in ret (mktime h m 0).

End Datetime.

(** ** [schemas.py] *)

Module Schemas.

(** A failed field: its location and the reason. *)
Definition error : Type := list string * string.

(** pydantic checks every field and reports all failures together. *)
Definition both {A B} (a : list error + A) (b : list error + B) : list error + (A * B) :=
  match a, b with
  | inr x, inr y => inr (x, y)
  | inl e, inr _ => inl e
  | inr _, inl e => inl e
  | inl e1, inl e2 => inl (e1 ++ e2)
  end.

Definition at_loc {A} (loc : list string) (r : list error + A) : list error + A :=
  match r with
  | inl errs => inl (map (fun e => (loc ++ fst e, snd e)) errs)
  | inr x => inr x
  end.

(** [name: str = Field(...)] *)
Definition required_str (kwargs : gmap string value) (name : string) : list error + string :=
  match kwargs !! name with
  | None => inl [([name], "Field required")]
  | Some (VStr s) => inr s
  | Some _ => inl [([name], "Input should be a valid string")]
  end.

(** [name: Optional[str] = None] *)
Definition optional_str (kwargs : gmap string value) (name : string)
  : list error + option string :=
  match kwargs !! name with
  | None | Some VNone => inr None
  | Some (VStr s) => inr (Some s)
  | Some _ => inl [([name], "Input should be a valid string")]
  end.

(** What the handlers use of [BaseModel]: the class name, the validation
    of the keyword arguments of the constructor, and [model_dump]. *)
Class BaseModel (A : Type) : Type := {
  title : string;
  validate : gmap string value -> list error + A;
  model_dump : A -> gmap string value
}.

(** A call of the constructor of [A] with keyword arguments [kwargs]. *)
Definition construct {A} `{BaseModel A} (kwargs : gmap string value) : result A :=
  match validate kwargs with
  | inl errs => raise (ValidationError title errs)
  | inr x => ret x
  end.

(** Validation of a value in a field or a request body of model type. *)
Definition validate_value {A} `{BaseModel A} (v : value) : list error + A :=
  match v with
  | VDict d => validate d
  | _ => inl [([], "Input should be a valid dictionary or object to extract fields from")]
  end.

(** Validation of the elements of a list field, each located by its index. *)
Fixpoint validate_list {A} `{BaseModel A} (i : nat) (vs : list value) : list error + list A :=
  match vs with
  | [] => inr []
  | v :: vs' =>
      match both (at_loc [str_nat i] (validate_value v)) (validate_list (S i) vs') with
      | inl errs => inl errs
      | inr (x, xs) => inr (x :: xs)
      end
  end.

Module MenuItem.
Record t : Type := mk { dish : string; type : string }.
End MenuItem.

#[export] Instance MenuItem_model : BaseModel MenuItem.t := {|
  title := "MenuItem";
  validate kwargs :=
    match both (required_str kwargs "dish") (required_str kwargs "type") with
    | inl errs => inl errs
    | inr (d, t) => inr (MenuItem.mk d t)
    end;
  model_dump x :=
    <["dish" := VStr (MenuItem.dish x)]> (<["type" := VStr (MenuItem.type x)]> ∅)
|}.

Module CanteenMenuDay.
Record t : Type := mk { date : string; items : list MenuItem.t }.
End CanteenMenuDay.

(** [items: List[MenuItem] = Field(default_factory=list)] *)
Definition items_field (kwargs : gmap string value) : list error + list MenuItem.t :=
  match kwargs !! "items" with
  | None => inr []
  | Some (VList vs) => at_loc ["items"] (validate_list 0 vs)
  | Some _ => inl [(["items"], "Input should be a valid list")]
  end.

#[export] Instance CanteenMenuDay_model : BaseModel CanteenMenuDay.t := {|
  title := "CanteenMenuDay";
  validate kwargs :=
    match both (required_str kwargs "date") (items_field kwargs) with
    | inl errs => inl errs
    | inr (d, xs) => inr (CanteenMenuDay.mk d xs)
    end;
  model_dump x :=
    <["date" := VStr (CanteenMenuDay.date x)]>
      (<["items" := VList (map (fun i => VDict (model_dump i)) (CanteenMenuDay.items x))]> ∅)
|}.

Module TimetableEntry.
Record t : Type := mk {
    date : string; start : string; end_ : string; subject : string;
    room : option string; teacher : option string; group : option string }.
End TimetableEntry.

Module AbsenceRecord.
Record t : Type := mk {
    date : string; start : string; end_ : string;
    justified : bool; reason : option string }.
End AbsenceRecord.

Module PronoteCredentials.
Record t : Type := mk { url : string; username : string; password : string }.
End PronoteCredentials.

#[export] Instance PronoteCredentials_model : BaseModel PronoteCredentials.t := {|
  title := "PronoteCredentials";
  validate kwargs :=
    match both (required_str kwargs "url")
               (both (required_str kwargs "username") (required_str kwargs "password")) with
    | inl errs => inl errs
    | inr (u, (n, p)) => inr (PronoteCredentials.mk u n p)
    end;
  model_dump x :=
    <["url" := VStr (PronoteCredentials.url x)]>
      (<["username" := VStr (PronoteCredentials.username x)]>
         (<["password" := VStr (PronoteCredentials.password x)]> ∅))
|}.

End Schemas.

(** ** [database.py] *)

Module Database.

Import Schemas.

(** Modelled from the spec: [database.py] is not among the sources. The
    document store is a set of named collections; a collection keeps its
    documents in insertion order, which is the order queries return them in.
    [next_oid] is the next identifier the storage will assign. [rejects]
    tells, for a collection name, the documents of that collection and a
    new document, whether the storage rejects the insert. *)
Record database : Type := mkdb {
  collections : gmap string (list (gmap string value));
  next_oid : N;
  rejects : string -> list (gmap string value) -> gmap string value -> bool
}.

Definition hex_char (n : N) : ascii :=
  if (n <? 10)%N then ascii_of_N (48 + n) else ascii_of_N (87 + n).

(** The last [k] hexadecimal digits of [x]. *)
Fixpoint hex (k : nat) (x : N) : string :=
  match k with
  | O => ""
  | S k' => hex k' (x / 16) +:+ String (hex_char (x mod 16)) ""
  end.

(** Modelled from the spec: the string form of a storage-assigned
    identifier, an opaque string: the 24 hexadecimal digits of the 12
    bytes of the identifier. *)
Definition str_oid (oid : N) : string := hex 24 oid.

(** Modelled from the spec: the two shapes of filter the handlers pass, an
    equality [{field: v}] and an inclusive range
    [{field: {"$gte": gte, "$lte": lte}}]. *)
Inductive condition : Type :=
| Equals (v : string)
| Range (gte lte : string).

(** Modelled from the spec: a field satisfies a condition when it holds a
    string that is equal to the given one, or lies in the range in the
    lexicographic order of strings. *)
Definition holds (c : condition) (v : option value) : bool :=
  match v with
  | Some (VStr s) =>
      match c with
      | Equals x => String.eqb s x
      | Range gte lte => String.leb gte s && String.leb s lte
      end
  | _ => false
  end.

(** Modelled from the spec: a document matches a filter when each field the
    filter names satisfies its condition. *)
Definition matches (filter_dict : gmap string condition) (doc : gmap string value) : bool :=
  forallb (fun kc => holds (snd kc) (doc !! fst kc)) (map_to_list filter_dict).

(** Modelled from the spec: the failure of a storage operation when the
    connection is unavailable ([db] is [None]); the spec does not give
    its message. *)
Definition unavailable : exn := StorageError "Database not available".

(** Modelled from the spec: the failure of an insert the storage rejects;
    the spec does not give its message. *)
Definition rejected : exn := StorageError "Insert rejected".

(** Modelled from the spec: [create_document(collection_name, data)] turns
    the validated payload into a document, inserts it at the end of the
    named collection under a fresh identifier, and returns the identifier
    as a string; it fails when the connection is unavailable or the insert
    is rejected, and then stores nothing. *)
Definition create_document {A} `{BaseModel A} (collection_name : string) (data : A)
    (db : option database) : result string * option database :=
  match db with
  | None => (raise unavailable, None)
  | Some st =>
      let oid := next_oid st in
      let doc := <["_id" := VObjectId oid]> (model_dump data) in
      let docs := default [] (collections st !! collection_name) in
      if rejects st collection_name docs doc then (raise rejected, Some st)
      else
        (ret (str_oid oid),
         Some (mkdb (<[collection_name := docs ++ [doc]]> (collections st)) (N.succ oid)
                 (rejects st)))
  end.

(** Modelled from the spec: [get_documents(collection_name, filter_dict,
    limit)] returns the first [limit] documents of the named collection that
    match the filter, in storage order; an empty list when none matches; it
    fails when the connection is unavailable. *)
Definition get_documents (collection_name : string) (filter_dict : gmap string condition)
    (limit : nat) (db : option database) : result (list (gmap string value)) :=
  match db with
  | None => raise unavailable
  | Some st =>
      ret (take limit
             (List.filter (matches filter_dict)
                (default [] (collections st !! collection_name))))
  end.

End Database.

(** ** [main.py] *)

Module Main.

Import Datetime Schemas Database.

(** The outcome of a request: the handler's return value, an
    [HTTPException], or the rejection of the request by the validation of
    its input (status 422). *)
Inductive response (A : Type) : Type :=
| OK (body : A)
| HTTPException (status_code : Z) (detail : text)
| RequestValidationError (errors : list error).

Arguments OK {A} body.
Arguments HTTPException {A} status_code detail.
Arguments RequestValidationError {A} errors.

(** [try: ... except Exception as e: raise HTTPException(status_code=500,
    detail=str(e))] *)
Definition try_except {A} (body : result A) : response A :=
  match body with
  | inr x => OK x
  | inl e => HTTPException 500 (str_exn e)
  end.

(** *** Cantine (menu) *)

Module MenuOut.
Record t : Type := mk { id : text; date : string; items : list MenuItem.t }.
End MenuOut.

(** [MenuOut(id=..., date=..., items=...)]: [id] is a string and [items]
    are [MenuItem]s already; [date] is whatever the document holds. *)
Definition MenuOut_new (id : text) (date : value) (items : list MenuItem.t)
  : result MenuOut.t :=
  match date with
  | VStr s => ret (MenuOut.mk id s items)
  | _ => raise (ValidationError "MenuOut" [(["date"], "Input should be a valid string")])
  end.

(** [str(v)] *)
Definition str (v : value) : text :=
  match v with
  | VNone => "None"
  | VBool true => "True"
  | VBool false => "False"
  | VInt z => str_Z z
  | VStr s => s
  | VObjectId oid => str_oid oid
  | VList _ | VDict _ => StrOf v
  end.

(** The characters of a string: a byte that is not a continuation byte
    starts a character. *)
Fixpoint chars (s : string) : list string :=
  match s with
  | EmptyString => []
  | String c r =>
      let starts_inside :=
        match r with
        | String c' _ => match continuation c' with Some _ => true | None => false end
        | EmptyString => false
        end in
      match chars r with
      | x :: xs => if starts_inside then String c x :: xs else String c "" :: x :: xs
      | [] => [String c ""]
      end
  end.

(** [for item in v]: the elements of a list, the characters of a string,
    the keys of a dict. *)
Definition iter (v : value) : result (list value) :=
  match v with
  | VList l => ret l
  | VStr s => ret (map VStr (chars s))
  | VDict d => ret (map (fun kv => VStr (fst kv)) (map_to_list d))
  | _ => raise (TypeError ("'" +:+ type_name v +:+ "' object is not iterable"))
  end.

(** The keyword arguments passed to [callee] by a double-star argument. *)
Definition kwargs_of (callee : string) (v : value) : result (gmap string value) :=
  match v with
  | VDict d => ret d
  | _ =>
      raise (TypeError (callee +:+ "() argument after ** must be a mapping, not "
                        +:+ type_name v))
  end.

Definition _serialize_menu (doc : gmap string value) : result MenuOut.t :=
  let id := str (default VNone (doc !! "_id")) in
  let date := default VNone (doc !! "date") in
  xs <- iter (default (VList []) (doc !! "items")) ;;
  items <- comprehension
             (fun item => kw <- kwargs_of "schemas.MenuItem" item ;; construct kw) xs ;;
  MenuOut_new id date items.

Definition create_menu_day (payload : CanteenMenuDay.t) (db : option database)
  : response (gmap string value) * option database :=
  let '(r, db') := create_document "canteenmenuday" payload db in
  (try_except (inserted_id <- r ;;
               ret (<["success" := VBool true]> (<["id" := VStr inserted_id]> ∅))),
   db').

Definition get_today_menu (now : datetime) (db : option database)
  : response (option MenuOut.t) :=
  try_except (
    let today := strftime_Ymd (dt_date now) in
    docs <- get_documents "canteenmenuday" {[ "date" := Equals today ]} 1 db ;;
    match docs with
    | [] => ret None
    | doc :: _ => out <- _serialize_menu doc ;; ret (Some out)
    end).

Definition get_menu_range (start end_ : string) (db : option database)
  : response (list MenuOut.t) :=
  try_except (
    docs <- get_documents "canteenmenuday" {[ "date" := Range start end_ ]} 100 db ;;
    comprehension _serialize_menu docs).

(** *** Pronote (emploi du temps et absences) *)

Module TimetableRequest.
Record t : Type := mk {
    url : string; username : string; password : string;
    start : option string; end_ : option string }.
End TimetableRequest.

Module AbsencesRequest.
Record t : Type := mk {
    url : string; username : string; password : string;
    start : option string; end_ : option string }.
End AbsencesRequest.

Definition with_period {A} (mk : PronoteCredentials.t -> option string -> option string -> A)
    (kwargs : gmap string value) : list error + A :=
  match both (validate kwargs)
             (both (optional_str kwargs "start") (optional_str kwargs "end")) with
  | inl errs => inl errs
  | inr (c, (s, e)) => inr (mk c s e)
  end.

#[export] Instance TimetableRequest_model : BaseModel TimetableRequest.t := {|
  title := "TimetableRequest";
  validate :=
    with_period (fun c s e =>
      TimetableRequest.mk (PronoteCredentials.url c) (PronoteCredentials.username c)
        (PronoteCredentials.password c) s e);
  model_dump x :=
    <["url" := VStr (TimetableRequest.url x)]>
      (<["username" := VStr (TimetableRequest.username x)]>
         (<["password" := VStr (TimetableRequest.password x)]>
            (<["start" := from_option VStr VNone (TimetableRequest.start x)]>
               (<["end" := from_option VStr VNone (TimetableRequest.end_ x)]> ∅))))
|}.

#[export] Instance AbsencesRequest_model : BaseModel AbsencesRequest.t := {|
  title := "AbsencesRequest";
  validate :=
    with_period (fun c s e =>
      AbsencesRequest.mk (PronoteCredentials.url c) (PronoteCredentials.username c)
        (PronoteCredentials.password c) s e);
  model_dump x :=
    <["url" := VStr (AbsencesRequest.url x)]>
      (<["username" := VStr (AbsencesRequest.username x)]>
         (<["password" := VStr (AbsencesRequest.password x)]>
            (<["start" := from_option VStr VNone (AbsencesRequest.start x)]>
               (<["end" := from_option VStr VNone (AbsencesRequest.end_ x)]> ∅))))
|}.

Definition subjects : list string := ["Maths"; "Français"; "Physique"; "Histoire"; "Anglais"].
Definition rooms : list string := ["B201"; "A105"; "Lab1"; "C303"; "L001"].

(** [xs[i]] *)
Definition index {A} (xs : list A) (i : nat) : result A :=
  match xs !! i with
  | Some x => ret x
  | None => raise (IndexError "list index out of range")
  end.

(** The body of the loop up to [results.append(...)]: the entry for day
    [cur] at position [i]. *)
Definition timetable_entry (cur : date) (i : nat) : result TimetableEntry.t :=
  t <- strptime_HM "08:00" ;;
  let start_t := combine cur t in
  end_t <- datetime_add start_t (timedelta_of 0 1 30) ;;
  subject <- index subjects (i mod length subjects) ;;
  room <- index rooms (i mod length rooms) ;;
  ret (TimetableEntry.mk (strftime_Ymd cur) (strftime_HM start_t) (strftime_HM end_t)
         subject (Some room) (Some "M./Mme X") (Some "2nde A")).

Definition inspect {A} (a : A) : {b : A | a = b} := exist _ a eq_refl.

(** [while cur <= end_date and i < 10: ...] *)
Equations? timetable_loop (end_date cur : date) (i : nat) (results : list TimetableEntry.t)
  : result (list TimetableEntry.t) by wf (10 - i) lt :=
  timetable_loop end_date cur i results with inspect (date_leb cur end_date && (i <? 10)) := {
    | exist _ true Hguard =>
        entry <- timetable_entry cur i ;;
        cur' <- date_add cur (timedelta_of 1 0 0) ;;
        timetable_loop end_date cur' (S i) (results ++ [entry])
    | exist _ false _ => ret results }.
Proof. apply andb_prop in Hguard as [_ Hi%Nat.ltb_lt]. lia. Qed.

(** In both handlers [if req.start: start_date = strptime(req.start, ...)]
    reads the string only when it is given and not empty. *)
Definition get_pronote_timetable (now : datetime) (req : TimetableRequest.t)
  : response (list TimetableEntry.t) :=
  try_except (
    let start_date := dt_date now in
    let end_date := start_date in
    start_date <- (if truthy (TimetableRequest.start req)
                   then strptime_Ymd (default "" (TimetableRequest.start req))
                   else ret start_date) ;;
    end_date <- (if truthy (TimetableRequest.end_ req)
                 then strptime_Ymd (default "" (TimetableRequest.end_ req))
                 else ret end_date) ;;
    let end_date := if date_ltb end_date start_date then start_date else end_date in
    timetable_loop end_date start_date 0 []).

Definition get_pronote_absences (now : datetime) (req : AbsencesRequest.t)
  : response (list AbsenceRecord.t) :=
  try_except (
    let start_date := dt_date now in
    start_date <- (if truthy (AbsencesRequest.start req)
                   then strptime_Ymd (default "" (AbsencesRequest.start req))
                   else ret start_date) ;;
    let absence_day := strftime_Ymd start_date in
    ret [AbsenceRecord.mk absence_day "10:00" "12:00" false None]).

(** *** The application: routing and validation of the inputs

    Each route validates its input against the type annotation of its
    handler before it calls the handler; a request whose input fails the
    validation is answered without the handler being called. *)

Inductive request : Type :=
| POST_api_menu (body : value)
| GET_api_menu_today
| GET_api_menu (start end_ : option string)
| POST_api_pronote_timetable (body : value)
| POST_api_pronote_absences (body : value).

Inductive reply : Type :=
| Dict (d : gmap string value)
| Menu (m : option MenuOut.t)
| Menus (ms : list MenuOut.t)
| Timetable (entries : list TimetableEntry.t)
| Absences (records : list AbsenceRecord.t).

Definition response_map {A B} (f : A -> B) (r : response A) : response B :=
  match r with
  | OK x => OK (f x)
  | HTTPException c d => HTTPException c d
  | RequestValidationError errs => RequestValidationError errs
  end.

(** A request body of model type [A]. [MenuCreate] adds nothing to
    [CanteenMenuDay] and is validated as such. *)
Definition Body {A} `{BaseModel A} (body : value) : list error + A :=
  at_loc ["body"] (validate_value body).

(** [Query(...)]: a required query parameter. *)
Definition Query (name : string) (v : option string) : list error + string :=
  match v with
  | Some s => inr s
  | None => inl [(["query"; name], "Field required")]
  end.

Definition app (now : datetime) (req : request) (db : option database)
  : response reply * option database :=
  match req with
  | POST_api_menu body =>
      match Body body with
      | inl errs => (RequestValidationError errs, db)
      | inr payload =>
          let '(r, db') := create_menu_day payload db in (response_map Dict r, db')
      end
  | GET_api_menu_today => (response_map Menu (get_today_menu now db), db)
  | GET_api_menu start end_ =>
      match both (Query "start" start) (Query "end" end_) with
      | inl errs => (RequestValidationError errs, db)
      | inr (s, e) => (response_map Menus (get_menu_range s e db), db)
      end
  | POST_api_pronote_timetable body =>
      match Body body with
      | inl errs => (RequestValidationError errs, db)
      | inr req => (response_map Timetable (get_pronote_timetable now req), db)
      end
  | POST_api_pronote_absences body =>
      match Body body with
      | inl errs => (RequestValidationError errs, db)
      | inr req => (response_map Absences (get_pronote_absences now req), db)
      end
  end.

(** *** The diagnostic route [/test] *)

(** What [test_database] uses of the handle [db]: the attribute [name],
    when the object has one, and the outcome of [list_collection_names()]:
    the names, or the [str()] of the exception it raises. *)
Record handle : Type := mkhandle {
  name : option string;
  list_collection_names : string + list string
}.

(** The first [n] characters of a string: a byte that is not a
    continuation byte starts a character. *)
Fixpoint take_chars (n : nat) (s : string) : string :=
  match s with
  | EmptyString => EmptyString
  | String c r =>
      match continuation c, n with
      | Some _, _ => String c (take_chars n r)
      | None, O => EmptyString
      | None, S n' => String c (take_chars n' r)
      end
  end.

(** [s[:50]] *)
Definition slice50 (s : string) : string := take_chars 50 s.

(** [test_database()], with the environment ([os.getenv]) and the handle
    as arguments. The dict [response] is updated in the order of the
    source. Of what the outer [try] runs, only the listing can raise, and
    the inner handler catches it. *)
Definition test_database (getenv : string -> option string) (db : option handle)
  : gmap string value :=
  let response : gmap string value :=
    <["backend" := VStr "✅ Running"]>
      (<["database" := VStr "❌ Not Available"]>
         (<["database_url" := VNone]>
            (<["database_name" := VNone]>
               (<["connection_status" := VStr "Not Connected"]>
                  (<["collections" := VList []]> ∅))))) in
  let response :=
    match db with
    | Some h =>
        let response := <["database" := VStr "✅ Available"]> response in
        let response := <["database_url" := VStr "✅ Configured"]> response in
        let response := <["database_name" := VStr (default "✅ Connected" (name h))]> response in
        let response := <["connection_status" := VStr "Connected"]> response in
        match list_collection_names h with
        | inr collections =>
            let response :=
              <["collections" := VList (map VStr (take 10 collections))]> response in
            <["database" := VStr "✅ Connected & Working"]> response
        | inl str_e =>
            <["database" := VStr ("⚠️  Connected but Error: " +:+ slice50 str_e)]>
              response
        end
    | None => <["database" := VStr "⚠️  Available but not initialized"]> response
    end in
  let response :=
    <["database_url" := VStr (if truthy (getenv "DATABASE_URL")
                              then "✅ Set" else "❌ Not Set")]> response in
  <["database_name" := VStr (if truthy (getenv "DATABASE_NAME")
                             then "✅ Set" else "❌ Not Set")]> response.

End Main.

(** ** Notions the statements are written with *)

Module Spec.

Import Datetime Schemas Database Main.

(** The documents of the menu collection, in storage order. *)
Definition menu_docs (st : database) : list (gmap string value) :=
  default [] (collections st !! "canteenmenuday").

(** The document's date is the string [d]. *)
Definition has_date (d : string) (doc : gmap string value) : bool :=
  match doc !! "date" with
  | Some (VStr s) => String.eqb s d
  | _ => false
  end.

(** The document's date lies in the inclusive range from [start] to [end_]
    in the lexicographic order. *)
Definition in_date_range (start end_ : string) (doc : gmap string value) : bool :=
  match doc !! "date" with
  | Some (VStr s) => String.leb start s && String.leb s end_
  | _ => false
  end.

(** The document stored for a menu day under the identifier [oid]. *)
Definition menu_doc (oid : N) (payload : CanteenMenuDay.t) : gmap string value :=
  <["_id" := VObjectId oid]> (model_dump payload).

(** The day returned for it. *)
Definition menu_out (oid : N) (payload : CanteenMenuDay.t) : MenuOut.t :=
  MenuOut.mk (str_oid oid) (CanteenMenuDay.date payload) (CanteenMenuDay.items payload).

(** The menu collection holds menu days only. Documents enter the
    collection through [create_menu_day] alone, so this holds of every
    state the application reaches from an empty store. *)
Definition menu_days_only (st : database) : Prop :=
  Forall (fun doc => exists oid payload, doc = menu_doc oid payload) (menu_docs st).

(** The states of the storage handle reached from [db] by serving requests. *)
Inductive reachable (db : option database) : option database -> Prop :=
| reach_refl : reachable db db
| reach_step db' now req :
    reachable db db' -> reachable db (snd (app now req db')).

(** A store without documents that rejects no insert. *)
Definition empty_store : database := mkdb ∅ 0 (fun _ _ _ => false).

(** The last day a [date] can hold. *)
Definition max_date : date := mkdate 9999 12 31.

(** The timetable entry at position [i], on day [d]. *)
Definition expected_entry (d : date) (i : nat) : TimetableEntry.t :=
  TimetableEntry.mk (strftime_Ymd d) "08:00" "09:30"
    (nth (i mod 5) subjects "") (Some (nth (i mod 5) rooms ""))
    (Some "M./Mme X") (Some "2nde A").

(** [n] posts of the same menu day, one after the other. *)
Fixpoint post_times (n : nat) (payload : CanteenMenuDay.t) (db : option database)
  : option database :=
  match n with
  | O => db
  | S n' => snd (create_menu_day payload (post_times n' payload db))
  end.

(** Sample data for the examples. *)
Definition soupe : MenuItem.t := MenuItem.mk "Soupe" "entrée".

Definition body_soupe : value :=
  VDict (<["date" := VStr "2024-01-01"]>
           (<["items" := VList [VDict (<["dish" := VStr "Soupe"]>
                                         (<["type" := VStr "entrée"]> ∅))]]> ∅)).

Definition body_without_date : value := VDict (<["items" := VList []]> ∅).

Definition noon : datetime := mkdatetime (mkdate 2024 3 5) (mktime 12 0 0).

(** The stored form of a menu item: a dict whose dish and type are the
    item's strings; other keys are allowed. *)
Definition item_is (v : value) (x : MenuItem.t) : Prop :=
  exists kw, v = VDict kw /\ kw !! "dish" = Some (VStr (MenuItem.dish x)) /\
             kw !! "type" = Some (VStr (MenuItem.type x)).

(** The date string a handler works with for an optional parameter: the
    parameter when it is given and not empty, the text of today otherwise. *)
Definition effective (now : datetime) (o : option string) : string :=
  if truthy o then default "" o else isoformat (dt_date now).

(** The identifiers of the stored menu documents are identifiers the
    storage assigned: they are below the next one. *)
Definition ids_assigned (st : database) : Prop :=
  Forall (fun doc => exists oid, doc !! "_id" = Some (VObjectId oid) /\ (oid < next_oid st)%N)
    (menu_docs st).

End Spec.

(** * Proofs *)

(** Case analysis on an integer [n] known to lie among the [len] integers
    from [lo] on. *)
Ltac enum_Z n lo len :=
  let H := fresh in
  assert (H : In n (map (fun k => (lo + Z.of_nat k)%Z) (seq 0 len))) by (vm_compute; lia);
  vm_compute in H;
  repeat (destruct H as [H | H]; [symmetry in H; subst n |]);
  try contradiction H.

Ltac enum_digit n := enum_Z n 0%Z 10%nat.
Ltac enum_month m := enum_Z m 1%Z 12%nat.

(** ** Parsing the text of a date *)

Module DatetimeFacts.
Import Datetime.
Local Open Scope Z_scope.

Lemma m_d_digit_char n r : 0 <= n <= 9 -> m_d (String (digit_char n) r) = [(n, r)].
Proof. intros Hn. enum_digit n; reflexivity. Qed.

Lemma m_bind_cons {A B} (p : matcher A) (k : A -> matcher B) s x r l :
  p s = (x, r) :: l -> m_bind p k s = (k x r ++ m_bind (fun _ => l) k s)%list.
Proof. unfold m_bind. intros ->. reflexivity. Qed.

Lemma m_bind_single {A B} (p : matcher A) (k : A -> matcher B) s x r :
  p s = [(x, r)] -> m_bind p k s = k x r.
Proof. unfold m_bind. intros ->. simpl. apply app_nil_r. Qed.

Lemma digit_bound a : 0 <= a mod 10 <= 9.
Proof. pose proof (Z.mod_pos_bound a 10). lia. Qed.

Lemma re_Y_pad4 y r : 0 <= y <= 9999 -> re_Y (pad4 y +:+ r) = [(y, r)].
Proof.
  intros Hy. unfold re_Y, pad4, pad2. cbv [String.append].
  do 4 (erewrite m_bind_single by (apply m_d_digit_char, digit_bound)).
  unfold m_ret. do 2 f_equal.
  Z.div_mod_to_equations. lia.
Qed.

Lemma m_bind_head {A B} (p : matcher A) (k : A -> matcher B) s x r l y l' :
  p s = (x, r) :: l -> k x r = y :: l' -> exists l'', m_bind p k s = y :: l''.
Proof.
  intros Hp Hk. rewrite (m_bind_cons _ _ _ _ _ _ Hp), Hk. eauto.
Qed.

Lemma re_m_two_digits m r :
  1 <= m <= 12 ->
  exists l, re_m (String (digit_char (m / 10 mod 10)) (String (digit_char (m mod 10)) r))
            = (m, r) :: l.
Proof.
  intros Hm.
  enum_month m; eexists; reflexivity.
Qed.

Lemma re_d_two_digits d r :
  1 <= d <= 31 ->
  exists l, re_d (String (digit_char (d / 10 mod 10)) (String (digit_char (d mod 10)) r))
            = (d, r) :: l.
Proof.
  intros Hd.
  assert (H : exists a b, d = 10 * a + b /\ 0 <= a <= 3 /\ 0 <= b <= 9).
  { exists (d / 10), (d mod 10). Z.div_mod_to_equations. lia. }
  destruct H as (a & b & -> & Ha & Hb).
  assert (H : a = 0 \/ a = 1 \/ a = 2 \/ a = 3) by lia.
  repeat destruct H as [-> | H]; try subst a; enum_digit b; try lia; eexists; reflexivity.
Qed.

Lemma days_in_month_le y m : days_in_month y m <= 31.
Proof.
  unfold days_in_month.
  repeat match goal with |- context [match ?x with _ => _ end] => destruct x end; lia.
Qed.

Lemma date_new_valid d : valid_date d -> date_new (year d) (month d) (day d) = inr d.
Proof.
  intros (Hy & Hm & Hd). unfold date_new.
  repeat match goal with
         | |- context [negb (?a && ?b)] =>
             replace (a && b) with true by (symmetry; apply andb_true_intro; lia);
             cbn [negb]
         end.
  destruct d; reflexivity.
Qed.

Lemma m_char_String c r : m_char c (String c r) = [(tt, r)].
Proof. unfold m_char. now rewrite Ascii.eqb_refl. Qed.

Lemma re_Ymd_isoformat d :
  valid_date d ->
  exists l, re_Ymd (isoformat d) = ((year d, month d, day d), "") :: l.
Proof.
  intros (Hy & Hm & Hd). unfold MINYEAR, MAXYEAR in Hy.
  pose proof (days_in_month_le (year d) (month d)) as Hdim.
  unfold re_Ymd, isoformat.
  rewrite (m_bind_single _ _ _ _ _ (re_Y_pad4 (year d) _ ltac:(lia))).
  unfold pad2. cbv [String.append].
  rewrite (m_bind_single _ _ _ _ _ (m_char_String _ _)).
  destruct (re_m_two_digits (month d) (String "-" (String (digit_char (day d / 10 mod 10))
              (String (digit_char (day d mod 10)) ""))) Hm) as [lm Hlm].
  destruct (re_d_two_digits (day d) "" ltac:(lia)) as [ld Hld].
  eapply m_bind_head; [exact Hlm |].
  rewrite (m_bind_single _ _ _ _ _ (m_char_String _ _)).
  rewrite (m_bind_cons _ _ _ _ _ _ Hld). reflexivity.
Qed.

(** Parsing the text [isoformat] writes gives the date back. *)
Lemma strptime_isoformat d : valid_date d -> strptime_Ymd (isoformat d) = inr d.
Proof.
  intros Hd. destruct (re_Ymd_isoformat d Hd) as [l Hl].
  unfold strptime_Ymd, re_match. rewrite Hl. cbn [bind ret].
  now apply date_new_valid.
Qed.

(** From year 1000 on [strftime] writes the text of [isoformat]. *)
Lemma strftime_isoformat d : 1000 <= year d -> strftime_Ymd d = isoformat d.
Proof.
  intros Hy. unfold strftime_Ymd, isoformat, year_text.
  repeat match goal with
         | |- context [?a <? ?b] => replace (a <? b) with false by (symmetry; apply Z.ltb_ge; lia)
         end.
  reflexivity.
Qed.

Lemma strptime_strftime d :
  valid_date d -> 1000 <= year d -> strptime_Ymd (strftime_Ymd d) = inr d.
Proof. intros Hd Hy. rewrite strftime_isoformat by assumption. now apply strptime_isoformat. Qed.

Lemma strftime_nonempty d : truthy (Some (strftime_Ymd d)) = true.
Proof.
  unfold strftime_Ymd, year_text.
  destruct (year d <? 10); [reflexivity |]. destruct (year d <? 100); [reflexivity |].
  destruct (year d <? 1000); reflexivity.
Qed.

Lemma isoformat_nonempty d : truthy (Some (isoformat d)) = true.
Proof. reflexivity. Qed.

End DatetimeFacts.

(** ** The calendar: ordinals, the next day, the order of dates *)

Module CalendarFacts.
Import Datetime Spec DatetimeFacts.
Local Open Scope Z_scope.

Lemma days_before_month_table y m :
  1 <= m <= 12 ->
  days_before_month y m =
  nth (Z.to_nat (m - 1)) [0; 31; 59; 90; 120; 151; 181; 212; 243; 273; 304; 334] 0
  + (if (2 <? m) && is_leap y then 1 else 0).
Proof.
  intros Hm. unfold days_before_month.
  enum_month m; cbv -[is_leap Z.add]; destruct (is_leap y); reflexivity.
Qed.

Lemma days_in_month_table y m :
  1 <= m <= 12 ->
  days_in_month y m =
  nth (Z.to_nat (m - 1)) [31; 28; 31; 30; 31; 30; 31; 31; 30; 31; 30; 31] 0
  + (if (m =? 2) && is_leap y then 1 else 0).
Proof.
  intros Hm. enum_month m; cbv -[is_leap Z.add]; destruct (is_leap y); reflexivity.
Qed.

Lemma days_before_month_next y m :
  1 <= m <= 11 -> days_before_month y (m + 1) = days_before_month y m + days_in_month y m.
Proof.
  intros Hm. rewrite !days_before_month_table, days_in_month_table by lia.
  enum_month m; try lia; cbv -[is_leap Z.add]; destruct (is_leap y); reflexivity.
Qed.

Lemma days_before_month_december y :
  days_before_month y 12 + 31 = year_length y.
Proof.
  rewrite days_before_month_table by lia. unfold year_length.
  cbn -[is_leap]. destruct (is_leap y); reflexivity.
Qed.

Lemma days_before_year_next y :
  1 <= y -> days_before_year (y + 1) = days_before_year y + year_length y.
Proof.
  intros Hy. unfold days_before_year, year_length, is_leap. cbv zeta.
  replace (y + 1 - 1) with y by lia.
  destruct (y mod 4 =? 0) eqn:E4; destruct (y mod 100 =? 0) eqn:E100;
    destruct (y mod 400 =? 0) eqn:E400; cbn [andb orb negb];
    rewrite ?Z.eqb_eq, ?Z.eqb_neq in *; Z.div_mod_to_equations; lia.
Qed.


Lemma year_length_bounds y : 365 <= year_length y <= 366.
Proof. unfold year_length. destruct (is_leap y); lia. Qed.

Lemma days_in_month_pos y m : 1 <= m <= 12 -> 28 <= days_in_month y m <= 31.
Proof.
  intros Hm. rewrite days_in_month_table by lia.
  destruct (is_leap y); enum_month m; simpl; lia.
Qed.

Lemma days_before_month_bounds y m :
  1 <= m <= 12 -> 0 <= days_before_month y m /\
                  days_before_month y m + days_in_month y m <= year_length y.
Proof.
  intros Hm. rewrite days_before_month_table, days_in_month_table by lia.
  unfold year_length.
  destruct (is_leap y); enum_month m; simpl; lia.
Qed.

Lemma days_before_month_mono y m m' :
  1 <= m -> m < m' -> m' <= 12 ->
  days_before_month y m + days_in_month y m <= days_before_month y m'.
Proof.
  intros H1 Hlt H12. rewrite !days_before_month_table, days_in_month_table by lia.
  destruct (is_leap y); enum_month m; try lia; enum_month m'; try lia; simpl; lia.
Qed.

Lemma days_before_year_mono y y' :
  1 <= y -> y < y' -> days_before_year y + year_length y <= days_before_year y'.
Proof.
  intros H1 Hlt. rewrite <- days_before_year_next by lia.
  unfold days_before_year. cbv zeta. Z.div_mod_to_equations. lia.
Qed.

(** The day after a date other than the last is the date of the next
    ordinal. *)
Lemma next_day_ordinal d :
  valid_date d -> d <> max_date ->
  exists d', next_day d = inr d' /\ valid_date d' /\ toordinal d' = toordinal d + 1.
Proof.
  intros (Hy & Hm & Hd) Hne. unfold MINYEAR, MAXYEAR in Hy.
  destruct d as [y m dd]. cbn [year month day] in *. unfold next_day. cbn [year month day].
  destruct (Z.ltb_spec dd (days_in_month y m)) as [Hlt | Hge].
  - eexists. split; [reflexivity |]. unfold valid_date, toordinal, MINYEAR, MAXYEAR.
    cbn [year month day]. lia.
  - assert (dd = days_in_month y m) as -> by lia.
    destruct (Z.ltb_spec m 12) as [Hm12 | Hm12].
    + eexists. split; [reflexivity |]. unfold valid_date, toordinal, MINYEAR, MAXYEAR.
      cbn [year month day]. pose proof (days_in_month_pos y (m + 1) ltac:(lia)).
      rewrite days_before_month_next by lia. lia.
    + assert (m = 12) as -> by lia.
      replace (days_in_month y 12) with 31 in * by reflexivity.
      destruct (Z.ltb_spec y MAXYEAR) as [Hy' | Hy']; unfold MAXYEAR in Hy'.
      * eexists. split; [reflexivity |]. unfold valid_date, toordinal, MINYEAR, MAXYEAR.
        cbn [year month day]. rewrite days_before_year_next by lia.
        pose proof (days_before_month_december y).
        replace (days_in_month (y + 1) 1) with 31 by reflexivity.
        replace (days_before_month (y + 1) 1) with 0 by reflexivity. lia.
      * exfalso. apply Hne. unfold max_date. f_equal. lia.
Qed.

Lemma date_ltb_ordinal a b :
  valid_date a -> valid_date b -> date_ltb a b = true -> toordinal a < toordinal b.
Proof.
  intros (Hya & Hma & Hda) (Hyb & Hmb & Hdb). unfold MINYEAR, MAXYEAR in *.
  unfold date_ltb, toordinal. intros H.
  pose proof (days_before_month_bounds (year a) (month a) Hma) as [Ha0 Ha1].
  pose proof (days_before_month_bounds (year b) (month b) Hmb) as [Hb0 Hb1].
  apply orb_true_iff in H as [H | H].
  - apply Z.ltb_lt in H.
    pose proof (days_before_year_mono (year a) (year b) ltac:(lia) H). lia.
  - apply andb_true_iff in H as [Hy H]. apply Z.eqb_eq in Hy. rewrite Hy in *.
    apply orb_true_iff in H as [H | H].
    + apply Z.ltb_lt in H.
      pose proof (days_before_month_mono (year b) (month a) (month b) ltac:(lia) H
                    ltac:(lia)). lia.
    + apply andb_true_iff in H as [Hm H]. apply Z.eqb_eq in Hm. apply Z.ltb_lt in H.
      rewrite Hm. lia.
Qed.

Lemma date_ltb_total a b : date_ltb a b = false -> date_ltb b a = false -> a = b.
Proof.
  unfold date_ltb. intros H1 H2. destruct a as [ya ma da], b as [yb mb db].
  cbn [year month day] in *.
  apply orb_false_iff in H1 as [H1 H1']. apply orb_false_iff in H2 as [H2 H2'].
  apply Z.ltb_ge in H1, H2. assert (ya = yb) as -> by lia.
  rewrite Z.eqb_refl in H1', H2'. cbn [andb] in *.
  apply orb_false_iff in H1' as [H1' H1'']. apply orb_false_iff in H2' as [H2' H2''].
  apply Z.ltb_ge in H1', H2'. assert (ma = mb) as -> by lia.
  rewrite Z.eqb_refl in H1'', H2''. cbn [andb] in *.
  apply Z.ltb_ge in H1'', H2''. f_equal. lia.
Qed.

(** The order of dates is the order of their ordinals. *)
Lemma date_leb_ordinal a b :
  valid_date a -> valid_date b -> (date_leb a b = true <-> toordinal a <= toordinal b).
Proof.
  intros Ha Hb. unfold date_leb. split.
  - intros H. apply negb_true_iff in H.
    destruct (date_ltb a b) eqn:E.
    + pose proof (date_ltb_ordinal a b Ha Hb E). lia.
    + rewrite (date_ltb_total a b E H). lia.
  - intros H. apply negb_true_iff. destruct (date_ltb b a) eqn:E; [| reflexivity].
    pose proof (date_ltb_ordinal b a Hb Ha E). lia.
Qed.

Lemma max_date_valid : valid_date max_date.
Proof. unfold valid_date, MINYEAR, MAXYEAR. cbn. lia. Qed.

Lemma toordinal_max d : valid_date d -> toordinal d <= toordinal max_date.
Proof.
  intros Hd. apply date_leb_ordinal; [exact Hd | apply max_date_valid |].
  destruct Hd as (Hy & Hm & Hdd). unfold MINYEAR, MAXYEAR in Hy.
    pose proof (days_in_month_le (year d) (month d)).
  unfold date_leb, date_ltb, max_date. cbn [year month day].
  apply negb_true_iff. apply orb_false_iff. split; [apply Z.ltb_ge; lia |].
  destruct (Z.eqb_spec 9999 (year d)); [| reflexivity]. cbn [andb].
  apply orb_false_iff. split; [apply Z.ltb_ge; lia |].
  destruct (Z.eqb_spec 12 (month d)); [| reflexivity]. cbn [andb].
  apply Z.ltb_ge. lia.
Qed.

Lemma toordinal_inj a b : valid_date a -> valid_date b -> toordinal a = toordinal b -> a = b.
Proof.
  intros Ha Hb H. apply date_ltb_total.
  - destruct (date_ltb a b) eqn:E; [| reflexivity].
    pose proof (date_ltb_ordinal a b Ha Hb E). lia.
  - destruct (date_ltb b a) eqn:E; [| reflexivity].
    pose proof (date_ltb_ordinal b a Hb Ha E). lia.
Qed.

Lemma date_new_inr y m d x : date_new y m d = inr x -> x = mkdate y m d /\ valid_date x.
Proof.
  unfold date_new.
  destruct ((MINYEAR <=? y) && (y <=? MAXYEAR)) eqn:Ey; [| discriminate].
  destruct ((1 <=? m) && (m <=? 12)) eqn:Em; [| discriminate].
  destruct ((1 <=? d) && (d <=? days_in_month y m)) eqn:Ed; [| discriminate].
  cbn [negb]. intros [= <-]. split; [reflexivity |].
  apply andb_true_iff in Ey as [? ?], Em as [? ?], Ed as [? ?].
  unfold valid_date. cbn [year month day]. lia.
Qed.

(** What [strptime] accepts is a date, and is not the empty string. *)
Lemma strptime_inr s d : strptime_Ymd s = inr d -> valid_date d /\ truthy (Some s) = true.
Proof.
  intros H. split.
  - unfold strptime_Ymd in H. destruct (re_match re_Ymd s "%Y-%m-%d") as [e | [[y m] dd]];
      [discriminate |]. cbn [bind] in H. now apply date_new_inr in H as [_ ?].
  - destruct s; [discriminate | reflexivity].
Qed.

End CalendarFacts.

(** ** The timetable loop *)

Module TimetableFacts.
Import Datetime Schemas Database Main Spec DatetimeFacts CalendarFacts.

Lemma timetable_loop_unfold end_date cur i results :
  timetable_loop end_date cur i results =
  if date_leb cur end_date && (i <? 10) then
    entry <- timetable_entry cur i ;;
    cur' <- date_add cur (timedelta_of 1 0 0) ;;
    timetable_loop end_date cur' (S i) (results ++ [entry])
  else ret results.
Proof.
  rewrite timetable_loop_equation_1. unfold inspect.
  cut (forall b (Hb : date_leb cur end_date && (i <? 10) = b),
          timetable_loop_unfold_clause_1 end_date cur i (exist _ b Hb) results =
          if b then
            entry <- timetable_entry cur i ;;
            cur' <- date_add cur (timedelta_of 1 0 0) ;;
            timetable_loop end_date cur' (S i) (results ++ [entry])
          else ret results).
  { intros H. apply H. }
  intros [] Hb; reflexivity.
Qed.

Lemma timetable_entry_eq cur i :
  timetable_entry cur i =
  (subject <- index subjects (i mod 5) ;;
   room <- index rooms (i mod 5) ;;
   ret (TimetableEntry.mk (strftime_Ymd cur) "08:00" "09:30" subject (Some room)
          (Some "M./Mme X") (Some "2nde A"))).
Proof. reflexivity. Qed.

Lemma timetable_entry_expected cur i : timetable_entry cur i = inr (expected_entry cur i).
Proof.
  rewrite timetable_entry_eq. unfold expected_entry.
  pose proof (Nat.mod_upper_bound i 5 ltac:(lia)) as Hlt.
  destruct (i mod 5)%nat as [| [| [| [| [| k]]]]]; try reflexivity. lia.
Qed.

Lemma date_add_one_day cur : date_add cur (timedelta_of 1 0 0) = next_day cur.
Proof.
  unfold date_add. change (Z.to_nat (td_days (timedelta_of 1 0 0))) with 1%nat.
  cbn [add_days]. now destruct (next_day cur).
Qed.

Lemma timetable_loop_step end_date cur i results :
  date_leb cur end_date = true -> (i < 10)%nat ->
  timetable_loop end_date cur i results =
  (cur' <- next_day cur ;;
   timetable_loop end_date cur' (S i) (results ++ [expected_entry cur i])).
Proof.
  intros Hle Hi. rewrite timetable_loop_unfold, Hle.
  replace (i <? 10)%nat with true by (symmetry; now apply Nat.ltb_lt).
  cbn [andb]. rewrite timetable_entry_expected. cbn [bind].
  now rewrite date_add_one_day.
Qed.

Lemma timetable_loop_stop end_date cur i results :
  date_leb cur end_date = false \/ (10 <= i)%nat ->
  timetable_loop end_date cur i results = inr results.
Proof.
  intros H. rewrite timetable_loop_unfold.
  replace (date_leb cur end_date && (i <? 10)%nat) with false; [reflexivity |].
  symmetry. apply andb_false_iff. destruct H as [H | H]; [now left | right].
  now apply Nat.ltb_ge.
Qed.

Local Open Scope Z_scope.

(** The loop, started on day [cur] at position [i] with [k] positions
    left: it adds an entry for each of the next [n] days, [n] the smaller
    of [k] and the number of days from [cur] to [end_date]; it fails
    instead when the last of these days is the last date. *)
Lemma timetable_loop_days end_date :
  valid_date end_date ->
  forall (k i : nat) cur results,
    (i + k = 10)%nat -> valid_date cur ->
    let n := Z.to_nat (Z.min (Z.of_nat k) (toordinal end_date - toordinal cur + 1)) in
    (toordinal cur + Z.of_nat n - 1 < toordinal max_date ->
     exists days,
       length days = n /\
       (forall (j : nat) d, days !! j = Some d ->
                            valid_date d /\ toordinal d = toordinal cur + Z.of_nat j) /\
       timetable_loop end_date cur i results
       = inr (results ++ imap (fun j d => expected_entry d (i + j)) days)) /\
    ((0 < n)%nat -> toordinal cur + Z.of_nat n - 1 = toordinal max_date ->
     timetable_loop end_date cur i results = inl (OverflowError "date value out of range")).
Proof.
  intros Hend. induction k as [| k IH]; intros i cur results Hik Hcur; cbv zeta.
  - replace (Z.to_nat _) with 0%nat by lia. split; [| lia].
    intros _. exists []. rewrite timetable_loop_stop by (right; lia).
    cbn [imap]. rewrite app_nil_r.
    split; [reflexivity |]. split; [| reflexivity]. intros j d Hj. discriminate.
  - destruct (date_leb cur end_date) eqn:Hle.
    2:{ assert (toordinal end_date < toordinal cur).
        { destruct (Z.lt_ge_cases (toordinal end_date) (toordinal cur)) as [? | Hge];
            [assumption |].
          apply (date_leb_ordinal cur end_date Hcur Hend) in Hge. congruence. }
        replace (Z.to_nat _) with 0%nat by lia. split; [| lia].
        intros _. exists []. rewrite timetable_loop_stop by now left.
        cbn [imap]. rewrite app_nil_r.
    split; [reflexivity |]. split; [| reflexivity]. intros j d Hj. discriminate. }
    pose proof (proj1 (date_leb_ordinal cur end_date Hcur Hend) Hle) as Hord.
    pose proof (toordinal_max end_date Hend) as Hmax.
    rewrite timetable_loop_step by (assumption || lia).
    destruct (Z.eq_dec (toordinal cur) (toordinal max_date)) as [Emax | Emax].
    + apply (toordinal_inj _ _ Hcur max_date_valid) in Emax as ->.
      change (next_day max_date) with (@inl exn date (OverflowError "date value out of range")).
      cbn [bind]. split; [lia | reflexivity].
    + assert (Hne : cur <> max_date) by (intros ->; now apply Emax).
      destruct (next_day_ordinal cur Hcur Hne) as (cur' & Hnext & Hcur' & Hord').
      rewrite Hnext. cbn [bind].
      specialize (IH (S i) cur' (results ++ [expected_entry cur i]) ltac:(lia) Hcur').
      cbv zeta in IH. destruct IH as [IHok IHfail].
      set (n' := Z.to_nat (Z.min (Z.of_nat k) (toordinal end_date - toordinal cur' + 1))) in *.
      replace (Z.to_nat (Z.min (Z.of_nat (S k)) (toordinal end_date - toordinal cur + 1)))
        with (S n') by lia.
      split.
      * intros Hlt. destruct IHok as (days & Hlen & Hdays & Hloop); [lia |].
        exists (cur :: days). split; [cbn [length]; lia |]. split.
        -- intros [| j] d Hj.
           ++ injection Hj as <-. split; [assumption | lia].
           ++ destruct (Hdays j d Hj) as [? ?]. split; [assumption | lia].
        -- rewrite Hloop, <- app_assoc. cbn [app imap].
           replace (i + 0)%nat with i by lia. do 3 f_equal.
           apply imap_ext. intros j d _. cbn. f_equal. lia.
      * intros _ Heq. apply IHfail; lia.
Qed.


Lemma get_pronote_timetable_dates now url username password s e d1 d2 :
  strptime_Ymd s = inr d1 -> strptime_Ymd e = inr d2 ->
  get_pronote_timetable now (TimetableRequest.mk url username password (Some s) (Some e))
  = try_except (timetable_loop (if date_ltb d2 d1 then d1 else d2) d1 0 []).
Proof.
  intros Hs He. unfold get_pronote_timetable.
  cbn [TimetableRequest.start TimetableRequest.end_ default from_option id].
  rewrite (proj2 (strptime_inr s d1 Hs)), (proj2 (strptime_inr e d2 He)), Hs, He.
  reflexivity.
Qed.

(** The timetable for a start and an end that parse: one entry per day
    from start to the later of start and end, ten at most, unless the last
    of these days is 9999-12-31, in which case the request fails. *)
Theorem timetable_days now url username password s e d1 d2 :
  strptime_Ymd s = inr d1 -> strptime_Ymd e = inr d2 ->
  let last := if date_ltb d2 d1 then d1 else d2 in
  let n := Z.to_nat (Z.min 10 (toordinal last - toordinal d1 + 1)) in
  let response :=
    get_pronote_timetable now (TimetableRequest.mk url username password (Some s) (Some e)) in
  (1 <= n <= 10)%nat /\
  (toordinal d1 + Z.of_nat n - 1 < toordinal max_date ->
   exists days,
     length days = n /\
     (forall (j : nat) d, days !! j = Some d ->
                          valid_date d /\ toordinal d = toordinal d1 + Z.of_nat j) /\
     response = OK (imap (fun j d => expected_entry d j) days)) /\
  (toordinal d1 + Z.of_nat n - 1 = toordinal max_date ->
   response = HTTPException 500 "date value out of range").
Proof.
  intros Hs He. cbv zeta.
  pose proof (proj1 (strptime_inr s d1 Hs)) as Hd1.
  pose proof (proj1 (strptime_inr e d2 He)) as Hd2.
  rewrite (get_pronote_timetable_dates now url username password s e d1 d2 Hs He).
  set (last := if date_ltb d2 d1 then d1 else d2).
  assert (Hlast : valid_date last) by (unfold last; now destruct (date_ltb d2 d1)).
  assert (Hle : toordinal d1 <= toordinal last).
  { unfold last. destruct (date_ltb d2 d1) eqn:E; [lia |].
    apply date_leb_ordinal; try assumption. unfold date_leb. now rewrite E. }
  destruct (timetable_loop_days last Hlast 10 0 d1 [] eq_refl Hd1) as [Hok Hfail].
  cbv zeta in Hok, Hfail. change (Z.of_nat 10) with 10 in Hok, Hfail.
  split; [lia |]. split.
  - intros Hlt. destruct (Hok Hlt) as (days & Hlen & Hdays & Hloop).
    exists days. rewrite Hloop. split; [assumption |]. split; [assumption |]. reflexivity.
  - intros Heq. rewrite Hfail; [reflexivity | lia | assumption].
Qed.

(** With an end before the start, the timetable is the one entry for the
    start day, unless that day is 9999-12-31. *)
Theorem timetable_end_before_start now url username password s e d1 d2 :
  strptime_Ymd s = inr d1 -> strptime_Ymd e = inr d2 ->
  date_ltb d2 d1 = true -> d1 <> max_date ->
  get_pronote_timetable now (TimetableRequest.mk url username password (Some s) (Some e))
  = OK [expected_entry d1 0].
Proof.
  intros Hs He Hlt Hne.
  pose proof (proj1 (strptime_inr s d1 Hs)) as Hd1.
  rewrite (get_pronote_timetable_dates now url username password s e d1 d2 Hs He), Hlt.
  destruct (next_day_ordinal d1 Hd1 Hne) as (d' & Hnext & Hd' & Hord).
  rewrite timetable_loop_step, Hnext; cbn [bind].
  - rewrite timetable_loop_stop; [reflexivity |]. left.
    destruct (date_leb d' d1) eqn:E; [| reflexivity].
    apply (date_leb_ordinal d' d1 Hd' Hd1) in E. lia.
  - apply (date_leb_ordinal d1 d1 Hd1 Hd1). lia.
  - lia.
Qed.

(** A start that [strptime] accepts in another spelling is answered with
    the zero-padded text of the date. *)
Example absences_start_is_normalised :
  get_pronote_absences noon (AbsencesRequest.mk "u" "n" "p" (Some "2024-3-5") None)
  = OK [AbsenceRecord.mk "2024-03-05" "10:00" "12:00" false None].
Proof. reflexivity. Qed.

(** Without an end the timetable runs from start to today. *)
Example timetable_without_end_runs_to_today :
  get_pronote_timetable noon (TimetableRequest.mk "u" "n" "p" (Some "2024-03-03") None)
  = OK [expected_entry (mkdate 2024 3 3) 0; expected_entry (mkdate 2024 3 4) 1;
        expected_entry (mkdate 2024 3 5) 2].
Proof. reflexivity. Qed.

End TimetableFacts.

(** ** The menu collection *)

Module MenuFacts.
Import Datetime Schemas Database Main Spec.

Lemma filter_none {A} (f : A -> bool) l :
  Forall (fun x => f x = false) l -> List.filter f l = [].
Proof. induction 1 as [| x l Hx _ IH]; [reflexivity |]. cbn. now rewrite Hx. Qed.

Lemma filter_first {A} (f : A -> bool) pre x post :
  Forall (fun y => f y = false) pre -> f x = true ->
  List.filter f (pre ++ x :: post) = x :: List.filter f post.
Proof.
  intros Hpre Hx. rewrite List.filter_app, (filter_none _ _ Hpre). cbn. now rewrite Hx.
Qed.

Lemma string_leb_refl s : String.leb s s = true.
Proof.
  unfold String.leb. destruct (String.compare s s) eqn:E; try reflexivity.
  pose proof (String.compare_antisym s s) as H. rewrite E in H. discriminate.
Qed.

Lemma string_leb_trans a b c :
  String.leb a b = true -> String.leb b c = true -> String.leb a c = true.
Proof.
  unfold String.leb. intros H1 H2.
  destruct (String.compare a b) eqn:E1; try discriminate.
  - apply String.compare_eq_iff in E1. now subst.
  - destruct (String.compare b c) eqn:E2; try discriminate.
    + apply String.compare_eq_iff in E2. subst. now rewrite E1.
    + apply OrderedTypeEx.String_as_OT.cmp_lt in E1, E2.
      pose proof (OrderedTypeEx.String_as_OT.lt_trans _ _ _ E1 E2) as H.
      apply OrderedTypeEx.String_as_OT.cmp_lt in H. unfold OrderedTypeEx.String_as_OT.cmp in H. now rewrite H.
Qed.

Lemma string_ltb_not_leb a b : String.ltb a b = true -> String.leb b a = false.
Proof.
  unfold String.ltb, String.leb. rewrite (String.compare_antisym a b).
  destruct (String.compare b a); simpl; congruence.
Qed.

Lemma matches_equals d doc : matches {[ "date" := Equals d ]} doc = has_date d doc.
Proof.
  unfold matches, has_date. rewrite map_to_list_singleton. simpl.
  destruct (doc !! "date") as [[]|]; simpl; try reflexivity. apply andb_true_r.
Qed.

Lemma matches_range s e doc : matches {[ "date" := Range s e ]} doc = in_date_range s e doc.
Proof.
  unfold matches, in_date_range. rewrite map_to_list_singleton. simpl.
  destruct (doc !! "date") as [[]|]; simpl; try reflexivity. apply andb_true_r.
Qed.

Lemma in_date_range_same d doc : in_date_range d d doc = has_date d doc.
Proof.
  unfold in_date_range, has_date. destruct (doc !! "date") as [[]|]; try reflexivity.
  destruct (String.eqb_spec s d) as [-> | Hne].
  - now rewrite string_leb_refl.
  - apply andb_false_iff.
    destruct (String.leb d s) eqn:E1; [right | now left].
    destruct (String.leb s d) eqn:E2; [| reflexivity].
    exfalso. apply Hne. now apply String.leb_antisym.
Qed.

Lemma in_date_range_inverted s e doc :
  String.ltb e s = true -> in_date_range s e doc = false.
Proof.
  intros Hlt. unfold in_date_range. destruct (doc !! "date") as [[]|]; try reflexivity.
  apply andb_false_iff.
  destruct (String.leb s s0) eqn:E1; [right | now left].
  destruct (String.leb s0 e) eqn:E2; [| reflexivity].
  pose proof (string_leb_trans _ _ _ E1 E2) as H.
  rewrite (string_ltb_not_leb _ _ Hlt) in H. discriminate.
Qed.

Lemma comprehension_items (xs : list MenuItem.t) :
  comprehension (fun item => kw <- kwargs_of "schemas.MenuItem" item ;; construct kw)
    (map (fun i => VDict (model_dump i)) xs) = inr xs.
Proof.
  induction xs as [| [d t] xs IH]; [reflexivity |].
  cbn [map comprehension]. rewrite IH. reflexivity.
Qed.

Lemma serialize_menu_doc oid payload :
  _serialize_menu (menu_doc oid payload) = inr (menu_out oid payload).
Proof.
  unfold _serialize_menu, menu_doc. cbn [model_dump CanteenMenuDay_model].
  simplify_map_eq. cbn [iter bind]. rewrite comprehension_items. reflexivity.
Qed.


Lemma comprehension_menu_docs docs :
  Forall (fun doc => exists oid payload, doc = menu_doc oid payload) docs ->
  exists outs,
    comprehension _serialize_menu docs = inr outs /\
    Forall2 (fun doc out => _serialize_menu doc = inr out) docs outs.
Proof.
  induction 1 as [| doc docs (oid & payload & ->) _ (outs & IH & IH2)].
  - exists []. split; [reflexivity | constructor].
  - exists (menu_out oid payload :: outs). cbn [comprehension].
    rewrite serialize_menu_doc, IH. split; [reflexivity |].
    constructor; [apply serialize_menu_doc | assumption].
Qed.

Lemma comprehension_app {A B} (f : A -> result B) xs ys xs' ys' :
  comprehension f xs = inr xs' -> comprehension f ys = inr ys' ->
  comprehension f (xs ++ ys) = inr (xs' ++ ys').
Proof.
  revert xs'. induction xs as [| x xs IH]; intros xs' Hx Hy.
  - injection Hx as <-. exact Hy.
  - simpl in *. destruct (f x) as [e | y]; [discriminate |].
    simpl in *. destruct (comprehension f xs) as [e | zs]; [discriminate |].
    simpl in Hx. injection Hx as <-. now rewrite (IH zs eq_refl Hy).
Qed.

Lemma comprehension_inr {A B} (f : A -> result B) xs ys :
  comprehension f xs = inr ys <-> Forall2 (fun x y => f x = inr y) xs ys.
Proof.
  split.
  - revert ys. induction xs as [| x xs IH]; intros ys H; simpl in H.
    + injection H as <-. constructor.
    + destruct (f x) as [e | y] eqn:Hx; [discriminate |]. simpl in H.
      destruct (comprehension f xs) as [e | ys'] eqn:Hxs; [discriminate |].
      simpl in H. injection H as <-. constructor; [exact Hx | now apply IH].
  - induction 1 as [| x y xs ys Hx _ IH]; [reflexivity |].
    simpl. rewrite Hx. simpl. rewrite IH. reflexivity.
Qed.

(** A comprehension over elements that all convert returns a list. *)
Lemma comprehension_all {A B} (f : A -> result B) xs :
  Forall (fun x => exists y, f x = inr y) xs -> exists ys, comprehension f xs = inr ys.
Proof.
  induction 1 as [| x xs [y Hy] _ [ys IH]]; [now exists [] |].
  exists (y :: ys). simpl. rewrite Hy. simpl. now rewrite IH.
Qed.

(** The store after the insert of a menu day. *)
Lemma menu_docs_inserted st doc n f :
  menu_docs (mkdb (<["canteenmenuday" := menu_docs st ++ [doc]]> (collections st)) n f)
  = menu_docs st ++ [doc].
Proof. unfold menu_docs at 1. cbn [collections]. now rewrite lookup_insert_eq. Qed.

(** [create_menu_day] on an available store: the insert is rejected and
    nothing is stored, or the document is added at the end. *)
Lemma create_menu_day_available payload st :
  create_menu_day payload (Some st) =
  if rejects st "canteenmenuday" (menu_docs st) (menu_doc (next_oid st) payload)
  then (HTTPException 500 (str_exn rejected), Some st)
  else
    (OK (<["success" := VBool true]> (<["id" := VStr (str_oid (next_oid st))]> ∅)),
     Some (mkdb (<["canteenmenuday" := menu_docs st ++ [menu_doc (next_oid st) payload]]>
                   (collections st))
                (N.succ (next_oid st)) (rejects st))).
Proof.
  unfold create_menu_day, create_document, menu_docs, menu_doc.
  now destruct (rejects st _ _ _).
Qed.

(** A POST that is answered with success has stored its document. *)
Lemma create_menu_day_ok payload st r :
  fst (create_menu_day payload (Some st)) = OK r ->
  create_menu_day payload (Some st) =
  (OK (<["success" := VBool true]> (<["id" := VStr (str_oid (next_oid st))]> ∅)),
   Some (mkdb (<["canteenmenuday" := menu_docs st ++ [menu_doc (next_oid st) payload]]>
                 (collections st))
              (N.succ (next_oid st)) (rejects st))).
Proof.
  rewrite create_menu_day_available.
  destruct (rejects st _ _ _); [discriminate | reflexivity].
Qed.

Lemma create_menu_day_docs payload st :
  exists st', snd (create_menu_day payload (Some st)) = Some st' /\
              (st' = st \/
               st' = mkdb (<["canteenmenuday" :=
                              menu_docs st ++ [menu_doc (next_oid st) payload]]>
                             (collections st))
                          (N.succ (next_oid st)) (rejects st)).
Proof.
  rewrite create_menu_day_available.
  destruct (rejects st _ _ _); eexists; (split; [reflexivity |]); auto.
Qed.

Lemma create_menu_day_unavailable payload :
  create_menu_day payload None = (HTTPException 500 (str_exn unavailable), None).
Proof. reflexivity. Qed.

Lemma get_menu_range_available s e st :
  get_menu_range s e (Some st) =
  try_except (comprehension _serialize_menu
                (take 100 (List.filter (in_date_range s e) (menu_docs st)))).
Proof.
  unfold get_menu_range, get_documents. cbn [bind ret]. do 3 f_equal.
  apply List.filter_ext. intros doc. apply matches_range.
Qed.

Lemma get_today_menu_available now st :
  get_today_menu now (Some st) =
  try_except
    match take 1 (List.filter (has_date (strftime_Ymd (dt_date now))) (menu_docs st)) with
    | [] => ret None
    | doc :: _ => out <- _serialize_menu doc ;; ret (Some out)
    end.
Proof.
  unfold get_today_menu, get_documents. cbn [bind ret].
  rewrite (List.filter_ext _ _ (matches_equals (strftime_Ymd (dt_date now)))).
  reflexivity.
Qed.

Lemma get_menu_range_unavailable s e :
  get_menu_range s e None = HTTPException 500 (str_exn unavailable).
Proof. reflexivity. Qed.

Lemma get_today_menu_unavailable now :
  get_today_menu now None = HTTPException 500 (str_exn unavailable).
Proof. reflexivity. Qed.

(** The text [model_dump] writes validates as the payload it came from. *)
Lemma validate_model_dump (payload : CanteenMenuDay.t) :
  Body (VDict (model_dump payload)) = inr payload.
Proof.
  destruct payload as [d xs]. unfold Body, validate_value.
  cbn [validate model_dump CanteenMenuDay_model CanteenMenuDay.date CanteenMenuDay.items].
  unfold required_str, items_field. simplify_map_eq.
  assert (H : forall i, validate_list i (map (fun x => VDict (model_dump x)) xs) = inr xs).
  { induction xs as [| [dish type] xs IH]; intros i; [reflexivity |].
    cbn [map validate_list]. rewrite IH. reflexivity. }
  rewrite H. reflexivity.
Qed.

Lemma empty_store_menu_days_only : menu_days_only empty_store.
Proof. constructor. Qed.

Lemma create_menu_day_menu_days_only payload st st' :
  menu_days_only st -> snd (create_menu_day payload (Some st)) = Some st' ->
  menu_days_only st'.
Proof.
  intros Hwf Hst'. destruct (create_menu_day_docs payload st) as (st'' & Heq & Hdocs).
  rewrite Heq in Hst'. injection Hst' as ->. destruct Hdocs as [-> | ->]; [exact Hwf |].
  unfold menu_days_only. rewrite menu_docs_inserted. apply Forall_app. split; [exact Hwf |].
  constructor; [eauto | constructor].
Qed.

(** A request changes the store only by the document [create_menu_day]
    inserts for a validated menu day. *)
Lemma app_store now req db :
  snd (app now req db) = db \/
  exists body payload, req = POST_api_menu body /\ Body body = inr payload /\
                       snd (app now req db) = snd (create_menu_day payload db).
Proof.
  destruct req as [body | | s e | body | body]; cbn [app].
  - destruct (Body body) as [errs | payload] eqn:Hb; [now left |].
    right. exists body, payload. repeat split; try assumption.
    now destruct (create_menu_day payload db).
  - now left.
  - destruct (both _ _) as [? | []]; now left.
  - destruct (Body body); now left.
  - destruct (Body body); now left.
Qed.

Lemma app_menu_days_only now req st st' :
  menu_days_only st -> snd (app now req (Some st)) = Some st' -> menu_days_only st'.
Proof.
  intros Hwf Hst'. destruct (app_store now req (Some st)) as [Heq | (b & p & _ & _ & Heq)];
    rewrite Heq in Hst'.
  - now injection Hst' as <-.
  - now apply (create_menu_day_menu_days_only p st).
Qed.

Lemma reachable_menu_days_only db :
  reachable (Some empty_store) db -> exists st, db = Some st /\ menu_days_only st.
Proof.
  induction 1 as [| db' now req _ (st & -> & Hwf)].
  - exists empty_store. split; [reflexivity | apply empty_store_menu_days_only].
  - destruct (app_store now req (Some st)) as [Heq | (b & p & _ & _ & Heq)]; rewrite Heq.
    + eauto.
    + destruct (create_menu_day_docs p st) as (st' & Hst' & _). exists st'.
      split; [exact Hst' |]. now apply (create_menu_day_menu_days_only p st).
Qed.

End MenuFacts.

Import Datetime Schemas Database Main Spec.
Import DatetimeFacts CalendarFacts TimetableFacts MenuFacts.

(** * The claims *)

(** C1, as stated, does not hold: after 100 menu days dated 2024-01-01
    have been posted, a further POST /api/menu of a day of that date with
    one dish succeeds, and GET /api/menu?start=2024-01-01&end=2024-01-01
    returns the first 100 days, none of which has the dish. *)
Lemma C1_hundred_days_hide_the_new_one :
  let d := "2024-01-01" in
  let payload := CanteenMenuDay.mk d [soupe] in
  let db := post_times 100 (CanteenMenuDay.mk d []) (Some empty_store) in
  fst (create_menu_day payload db)
    = OK (<["success" := VBool true]> (<["id" := VStr "000000000000000000000064"]> ∅)) /\
  exists outs,
    get_menu_range d d (snd (create_menu_day payload db)) = OK outs /\
    ~ exists out, In out outs /\ MenuOut.items out = CanteenMenuDay.items payload.
Proof.
  cbv zeta. split; [vm_compute; reflexivity |].
  exists (map (fun n => MenuOut.mk (str_oid (N.of_nat n)) "2024-01-01" []) (seq 0 100)).
  split; [vm_compute; reflexivity |].
  intros (out & Hin & Hitems). apply in_map_iff in Hin as (n & <- & _). discriminate.
Qed.

(** C1, amended: for every request body that validates as a CanteenMenuDay
    with date d and items xs and every store with fewer than 100 documents
    dated d, when POST /api/menu with that body is answered with success,
    every sequence of days that a following GET /api/menu?start=d&end=d
    returns ends with a day with date d whose items are xs, in the same
    order, under the identifier the POST returned; and the GET does return
    a sequence of days when the documents dated d that the store held
    before serialize, as stored menu days do. *)
Theorem C1_post_then_get now now' body payload st ok :
  Body body = inr payload ->
  length (List.filter (has_date (CanteenMenuDay.date payload)) (menu_docs st)) < 100 ->
  fst (app now (POST_api_menu body) (Some st)) = OK ok ->
  let d := CanteenMenuDay.date payload in
  let posted := app now (POST_api_menu body) (Some st) in
  let got := fst (app now' (GET_api_menu (Some d) (Some d)) (snd posted)) in
  (forall outs,
     got = OK (Menus outs) ->
     exists outs' out id,
       outs = outs' ++ [out] /\
       ok = Dict (<["success" := VBool true]> (<["id" := VStr id]> ∅)) /\
       MenuOut.id out = id /\
       MenuOut.date out = d /\ MenuOut.items out = CanteenMenuDay.items payload) /\
  (Forall (fun doc => exists out, _serialize_menu doc = inr out)
     (List.filter (has_date d) (menu_docs st)) ->
   exists outs, got = OK (Menus outs)).
Proof.
  intros Hbody Hlt Hok. cbv zeta. revert Hok. cbn [app]. rewrite Hbody.
  destruct (create_menu_day payload (Some st)) as [r db'] eqn:Hpost. cbn [fst snd].
  intros Hok. destruct r as [r | |]; try discriminate.
  pose proof (create_menu_day_ok payload st r) as Hcreate.
  rewrite Hpost in Hcreate. specialize (Hcreate eq_refl).
  injection Hcreate as -> ->. cbn [response_map] in Hok. injection Hok as <-.
  cbn [Query both]. rewrite get_menu_range_available, menu_docs_inserted.
  rewrite (List.filter_ext _ _ (in_date_range_same (CanteenMenuDay.date payload))).
  rewrite List.filter_app. cbn [List.filter].
  replace (has_date (CanteenMenuDay.date payload) (menu_doc (next_oid st) payload))
    with true.
  2:{ unfold has_date, menu_doc. cbn [model_dump CanteenMenuDay_model].
      simplify_map_eq. symmetry. apply String.eqb_refl. }
  rewrite take_ge by (rewrite length_app; cbn [length]; lia).
  split.
  - intros outs Hgot.
    destruct (comprehension _ _) as [e | outs0] eqn:Hc; [discriminate |].
    cbn [try_except response_map] in Hgot. injection Hgot as ->.
    apply comprehension_inr in Hc. apply Forall2_app_inv_l in Hc as (o1 & o2 & _ & H2 & ->).
    inversion H2 as [| ? out ? tl Hout Htl]; subst. inversion Htl; subst.
    rewrite serialize_menu_doc in Hout. injection Hout as <-.
    exists o1, (menu_out (next_oid st) payload), (str_oid (next_oid st)). repeat split.
  - intros Hall. destruct (comprehension_all _ _ Hall) as [outs Houts].
    exists (outs ++ [menu_out (next_oid st) payload]).
    rewrite (comprehension_app _ _ _ outs [menu_out (next_oid st) payload] Houts).
    + reflexivity.
    + cbn [comprehension]. now rewrite serialize_menu_doc.
Qed.

Lemma C1_post_then_get_witness :
  let ok := Dict (<["success" := VBool true]> (<["id" := VStr "000000000000000000000000"]> ∅)) in
  Body body_soupe = inr (CanteenMenuDay.mk "2024-01-01" [soupe]) /\
  length (List.filter (has_date "2024-01-01") (menu_docs empty_store)) < 100 /\
  fst (app noon (POST_api_menu body_soupe) (Some empty_store)) = OK ok /\
  exists outs,
    fst (app noon (GET_api_menu (Some "2024-01-01") (Some "2024-01-01"))
           (snd (app noon (POST_api_menu body_soupe) (Some empty_store)))) = OK (Menus outs) /\
    exists outs' out, outs = outs' ++ [out] /\ MenuOut.items out = [soupe].
Proof.
  cbv zeta.
  assert (Hbody : Body body_soupe = inr (CanteenMenuDay.mk "2024-01-01" [soupe]))
    by (vm_compute; reflexivity).
  assert (Hlen : length (List.filter (has_date "2024-01-01") (menu_docs empty_store)) < 100)
    by (vm_compute; lia).
  assert (Hok : fst (app noon (POST_api_menu body_soupe) (Some empty_store))
                = OK (Dict (<["success" := VBool true]>
                              (<["id" := VStr "000000000000000000000000"]> ∅))))
    by (vm_compute; reflexivity).
  split; [exact Hbody |]. split; [exact Hlen |]. split; [exact Hok |].
  destruct (C1_post_then_get noon noon body_soupe (CanteenMenuDay.mk "2024-01-01" [soupe])
              empty_store _ Hbody Hlen Hok) as [Hin Hex].
  destruct Hex as [outs Houts]; [constructor |].
  exists outs. split; [exact Houts |].
  destruct (Hin outs Houts) as (outs' & out & id & H1 & _ & _ & _ & H2).
  exists outs', out. auto.
Defined.

(** C2: a POST /api/menu whose body fails the validation as a
    CanteenMenuDay is answered with the validation errors, without
    [create_menu_day] being called, and leaves the store as it was; a body
    without the field date fails the validation, and the errors name that
    field. *)
Theorem C2_invalid_menu_rejected now body db :
  (forall errs, Body (A := CanteenMenuDay.t) body = inl errs ->
     app now (POST_api_menu body) db = (RequestValidationError errs, db)) /\
  (forall d, body = VDict d -> d !! "date" = None ->
     exists errs, Body (A := CanteenMenuDay.t) body = inl errs /\
                  In (["body"; "date"], "Field required") errs).
Proof.
  split.
  - intros errs Hbody. cbn [app]. now rewrite Hbody.
  - intros d -> Hdate. unfold Body, validate_value.
    cbn [validate CanteenMenuDay_model]. unfold required_str. rewrite Hdate.
    destruct (items_field d) as [errs | xs]; cbn [both at_loc map fst snd app];
      eexists; (split; [reflexivity | now left]).
Qed.

Lemma C2_invalid_menu_rejected_witness :
  Body (A := CanteenMenuDay.t) body_without_date = inl [(["body"; "date"], "Field required")] /\
  app noon (POST_api_menu body_without_date) (Some empty_store)
  = (RequestValidationError [(["body"; "date"], "Field required")], Some empty_store).
Proof.
  split; [vm_compute; reflexivity |].
  apply (C2_invalid_menu_rejected noon body_without_date (Some empty_store)).
  vm_compute. reflexivity.
Defined.

(** C3: when no document of the menu collection is dated today (the
    current UTC date), GET /api/menu/today returns null and no error; when
    some are, it returns the serialization of the first of them in storage
    order, which for a collection of menu days is a day dated today. *)
Theorem C3_today_menu now st :
  let today := strftime_Ymd (dt_date now) in
  (Forall (fun doc => has_date today doc = false) (menu_docs st) ->
     get_today_menu now (Some st) = OK None) /\
  (forall pre doc post,
     menu_docs st = pre ++ doc :: post ->
     Forall (fun doc' => has_date today doc' = false) pre ->
     has_date today doc = true ->
     get_today_menu now (Some st) = try_except (out <- _serialize_menu doc ;; ret (Some out)) /\
     (menu_days_only st ->
        exists out, _serialize_menu doc = inr out /\ MenuOut.date out = today /\
                    get_today_menu now (Some st) = OK (Some out))).
Proof.
  cbv zeta. split.
  - intros Hnone. rewrite get_today_menu_available, (filter_none _ _ Hnone). reflexivity.
  - intros pre doc post Hdocs Hpre Hdoc.
    assert (Heq : get_today_menu now (Some st)
                  = try_except (out <- _serialize_menu doc ;; ret (Some out))).
    { rewrite get_today_menu_available, Hdocs, (filter_first _ _ _ _ Hpre Hdoc).
      reflexivity. }
    split; [exact Heq |]. intros Hwf. unfold menu_days_only in Hwf.
    rewrite Hdocs in Hwf. apply Forall_app in Hwf as [_ Hwf].
    apply Forall_cons in Hwf as [(oid & payload & ->) _].
    exists (menu_out oid payload). rewrite Heq, serialize_menu_doc.
    repeat split. unfold has_date, menu_doc in Hdoc.
    cbn [model_dump CanteenMenuDay_model] in Hdoc. simplify_map_eq.
    now apply String.eqb_eq in Hdoc.
Qed.

Lemma C3_today_menu_witness :
  Forall (fun doc => has_date "2024-03-05" doc = false) (menu_docs empty_store) /\
  get_today_menu noon (Some empty_store) = OK None.
Proof.
  split; [constructor |].
  apply (C3_today_menu noon empty_store). constructor.
Defined.

(** C4: GET /api/menu?start&end returns the serializations, in storage
    order, of the first 100 stored documents whose date lies in the
    inclusive lexicographic range from start to end; for a collection of
    menu days these are at most 100 days, one per such document; when end
    is before start the request is served and the sequence is empty. *)
Theorem C4_menu_range now start end_ st :
  let found := take 100 (List.filter (in_date_range start end_) (menu_docs st)) in
  get_menu_range start end_ (Some st) = try_except (comprehension _serialize_menu found) /\
  (menu_days_only st ->
     exists outs, get_menu_range start end_ (Some st) = OK outs /\
                  Forall2 (fun doc out => _serialize_menu doc = inr out) found outs /\
                  length outs <= 100) /\
  (String.ltb end_ start = true ->
     app now (GET_api_menu (Some start) (Some end_)) (Some st) = (OK (Menus []), Some st)).
Proof.
  cbv zeta. split; [apply get_menu_range_available |]. split.
  - intros Hwf.
    destruct (comprehension_menu_docs
                (take 100 (List.filter (in_date_range start end_) (menu_docs st))))
      as (outs & Houts & Hall).
    { apply Forall_take. unfold menu_days_only in Hwf. rewrite Forall_forall in Hwf |- *.
      intros doc Hin. apply Hwf. apply list_elem_of_In.
      apply list_elem_of_In in Hin. apply List.filter_In in Hin. tauto. }
    exists outs. rewrite get_menu_range_available, Houts. repeat split; [exact Hall |].
    rewrite <- (Forall2_length _ _ _ Hall), length_take. lia.
  - intros Hlt. cbn [app Query both]. rewrite get_menu_range_available.
    rewrite filter_none; [reflexivity |].
    apply Forall_forall. intros doc _. now apply in_date_range_inverted.
Qed.

Lemma C4_menu_range_witness :
  String.ltb "2024-01-01" "2024-02-01" = true /\
  app noon (GET_api_menu (Some "2024-02-01") (Some "2024-01-01"))
      (post_times 3 (CanteenMenuDay.mk "2024-01-15" [soupe]) (Some empty_store))
  = (OK (Menus []), post_times 3 (CanteenMenuDay.mk "2024-01-15" [soupe]) (Some empty_store)).
Proof.
  split; [reflexivity |].
  destruct (post_times 3 (CanteenMenuDay.mk "2024-01-15" [soupe]) (Some empty_store))
    as [st |] eqn:Hst; [| discriminate].
  apply (C4_menu_range noon "2024-02-01" "2024-01-01" st). reflexivity.
Defined.

(** C5: POST /api/pronote/timetable with start 2024-01-01 and end
    2024-01-03, whatever the credentials and the time of the request,
    returns exactly three entries, dated 2024-01-01, 2024-01-02 and
    2024-01-03 in that order, with subjects Maths, Français, Physique in
    that order, each from 08:00 to 09:30. *)
Theorem C5_three_days now url username password :
  get_pronote_timetable now
    (TimetableRequest.mk url username password (Some "2024-01-01") (Some "2024-01-03"))
  = OK [ TimetableEntry.mk "2024-01-01" "08:00" "09:30" "Maths" (Some "B201")
           (Some "M./Mme X") (Some "2nde A");
         TimetableEntry.mk "2024-01-02" "08:00" "09:30" "Français" (Some "A105")
           (Some "M./Mme X") (Some "2nde A");
         TimetableEntry.mk "2024-01-03" "08:00" "09:30" "Physique" (Some "Lab1")
           (Some "M./Mme X") (Some "2nde A") ].
Proof. reflexivity. Qed.




(** C9: two POST /api/pronote/timetable requests, or two POST
    /api/pronote/absences requests, served at the same time and equal in
    start and end, get the same response whatever their url, username and
    password; serving a Pronote request leaves the store as it was, and the
    only change any request makes to the store is to append to the menu
    collection the document of a validated menu day. *)
Theorem C9_credentials_unused now (r1 r2 : TimetableRequest.t) (a1 a2 : AbsencesRequest.t) :
  TimetableRequest.start r1 = TimetableRequest.start r2 ->
  TimetableRequest.end_ r1 = TimetableRequest.end_ r2 ->
  AbsencesRequest.start a1 = AbsencesRequest.start a2 ->
  AbsencesRequest.end_ a1 = AbsencesRequest.end_ a2 ->
  get_pronote_timetable now r1 = get_pronote_timetable now r2 /\
  get_pronote_absences now a1 = get_pronote_absences now a2 /\
  (forall body db,
     snd (app now (POST_api_pronote_timetable body) db) = db /\
     snd (app now (POST_api_pronote_absences body) db) = db) /\
  (forall req st st',
     snd (app now req (Some st)) = Some st' ->
     st' = st \/
     exists payload : CanteenMenuDay.t,
       st' = mkdb (<["canteenmenuday" := menu_docs st ++ [menu_doc (next_oid st) payload]]>
                     (collections st))
                  (N.succ (next_oid st)) (rejects st)).
Proof.
  intros Hs He Has Hae. repeat split.
  - unfold get_pronote_timetable. now rewrite Hs, He.
  - unfold get_pronote_absences. now rewrite Has.
  - cbn [app]. now destruct (Body body).
  - cbn [app]. now destruct (Body body).
  - intros req st st' Hst'.
    destruct (app_store now req (Some st)) as [Heq | (b & p & _ & _ & Heq)];
      rewrite Heq in Hst'.
    + left. congruence.
    + destruct (create_menu_day_docs p st) as (st'' & Hsnd & Hdocs).
      rewrite Hsnd in Hst'. injection Hst' as ->.
      destruct Hdocs as [-> | ->]; [now left | right; now exists p].
Qed.

Lemma C9_credentials_unused_witness :
  get_pronote_timetable noon
    (TimetableRequest.mk "https://a.example" "alice" "pw1" (Some "2024-01-01") None)
  = get_pronote_timetable noon
      (TimetableRequest.mk "https://b.example" "bob" "pw2" (Some "2024-01-01") None)
  /\ get_pronote_absences noon
       (AbsencesRequest.mk "https://a.example" "alice" "pw1" None (Some "2024-01-09"))
     = get_pronote_absences noon
         (AbsencesRequest.mk "https://b.example" "bob" "pw2" None (Some "2024-01-09")).
Proof.
  destruct (C9_credentials_unused noon
              (TimetableRequest.mk "https://a.example" "alice" "pw1" (Some "2024-01-01") None)
              (TimetableRequest.mk "https://b.example" "bob" "pw2" (Some "2024-01-01") None)
              (AbsencesRequest.mk "https://a.example" "alice" "pw1" None (Some "2024-01-09"))
              (AbsencesRequest.mk "https://b.example" "bob" "pw2" None (Some "2024-01-09"))
              eq_refl eq_refl eq_refl eq_refl) as (H1 & H2 & _).
  split; [exact H1 | exact H2].
Defined.

(** C10, as stated, does not hold: the empty string is a start that does
    not parse as a date, yet POST /api/pronote/absences and POST
    /api/pronote/timetable with start "" return records dated today, not
    an error; so does the timetable with end "". *)
Lemma C10_empty_string_is_not_parsed :
  strptime_Ymd "" = inl (ValueError "time data '' does not match format '%Y-%m-%d'") /\
  get_pronote_absences noon (AbsencesRequest.mk "u" "n" "p" (Some "") None)
  = OK [AbsenceRecord.mk "2024-03-05" "10:00" "12:00" false None] /\
  get_pronote_timetable noon (TimetableRequest.mk "u" "n" "p" (Some "") None)
  = OK [expected_entry (mkdate 2024 3 5) 0] /\
  get_pronote_timetable noon (TimetableRequest.mk "u" "n" "p" (Some "2024-03-05") (Some ""))
  = OK [expected_entry (mkdate 2024 3 5) 0].
Proof. repeat split. Qed.

(** C10, amended: when a supplied start is not empty and does not parse as
    a %Y-%m-%d date, POST /api/pronote/absences and POST
    /api/pronote/timetable return status 500 with the message of the parse
    failure; so does the timetable for such an end when start is absent,
    empty or parses; POST /api/menu accepts the same string as the date of
    a body and, when it answers with success, has stored it as it is. *)
Theorem C10_unparsable_date now s e :
  s <> "" -> strptime_Ymd s = inl e ->
  (forall url username password end_,
     get_pronote_absences now (AbsencesRequest.mk url username password (Some s) end_)
     = HTTPException 500 (str_exn e)) /\
  (forall url username password end_,
     get_pronote_timetable now (TimetableRequest.mk url username password (Some s) end_)
     = HTTPException 500 (str_exn e)) /\
  (forall url username password start,
     truthy start = false \/ (exists d, strptime_Ymd (default "" start) = inr d) ->
     get_pronote_timetable now (TimetableRequest.mk url username password start (Some s))
     = HTTPException 500 (str_exn e)) /\
  (forall items,
     Body (VDict (model_dump (CanteenMenuDay.mk s items))) = inr (CanteenMenuDay.mk s items)) /\
  (forall items st ok,
     fst (create_menu_day (CanteenMenuDay.mk s items) (Some st)) = OK ok ->
     exists st',
       snd (create_menu_day (CanteenMenuDay.mk s items) (Some st)) = Some st' /\
       menu_docs st' = menu_docs st ++ [menu_doc (next_oid st) (CanteenMenuDay.mk s items)]).
Proof.
  intros Hs He.
  assert (Ht : truthy (Some s) = true) by (destruct s; [contradiction | reflexivity]).
  split; [| split; [| split; [| split]]].
  - intros. unfold get_pronote_absences. cbn [AbsencesRequest.start default from_option id].
    now rewrite Ht, He.
  - intros. unfold get_pronote_timetable. cbn [TimetableRequest.start default from_option id].
    now rewrite Ht, He.
  - intros url username password start Hstart. unfold get_pronote_timetable.
    cbn [TimetableRequest.start TimetableRequest.end_ default from_option id]. rewrite Ht, He.
    destruct Hstart as [-> | [d Hd]]; [reflexivity |].
    rewrite Hd. now destruct (truthy start).
  - intros items. apply validate_model_dump.
  - intros items st ok Hok. rewrite (create_menu_day_ok _ _ _ Hok). cbn [snd].
    eexists. split; [reflexivity |]. apply menu_docs_inserted.
Qed.

Lemma C10_unparsable_date_witness :
  "demain" <> "" /\
  strptime_Ymd "demain"
  = inl (ValueError "time data 'demain' does not match format '%Y-%m-%d'") /\
  get_pronote_absences noon (AbsencesRequest.mk "u" "n" "p" (Some "demain") None)
  = HTTPException 500 "time data 'demain' does not match format '%Y-%m-%d'".
Proof.
  split; [discriminate |]. split; [reflexivity |].
  apply (C10_unparsable_date noon "demain"
           (ValueError "time data 'demain' does not match format '%Y-%m-%d'"));
    [discriminate | reflexivity].
Defined.

(** C6 fails at the last date: with start 9999-12-31 and end 9999-12-30,
    both valid dates, end is clamped to start, the entry for 9999-12-31 is
    built, and the step to the next day overflows; the response is status
    500 and not the one entry dated start. *)
Theorem C6_end_before_start_on_last_date now url username password :
  strptime_Ymd "9999-12-31" = inr max_date /\
  strptime_Ymd "9999-12-30" = inr (mkdate 9999 12 30) /\
  date_ltb (mkdate 9999 12 30) max_date = true /\
  get_pronote_timetable now
    (TimetableRequest.mk url username password (Some "9999-12-31") (Some "9999-12-30"))
  = HTTPException 500 "date value out of range".
Proof. repeat split. Qed.

(** C7 fails when the last day of the range is the last date: with start
    and end both 9999-12-31 the response is status 500, not the one entry
    for that day; with start 9999-12-29 it is status 500, not three
    entries. *)
Theorem C7_range_ending_on_last_date now url username password :
  get_pronote_timetable now
    (TimetableRequest.mk url username password (Some "9999-12-31") (Some "9999-12-31"))
  = HTTPException 500 "date value out of range" /\
  get_pronote_timetable now
    (TimetableRequest.mk url username password (Some "9999-12-29") (Some "9999-12-31"))
  = HTTPException 500 "date value out of range".
Proof. split; reflexivity. Qed.

(** * Further properties of the code *)

Module SerializeFacts.
Import Datetime Schemas Database Main Spec MenuFacts.

Lemma comprehension_inl {A B} (f : A -> result B) pre x post ys e :
  comprehension f pre = inr ys -> f x = inl e ->
  comprehension f (pre ++ x :: post) = inl e.
Proof.
  revert ys. induction pre as [| p pre IH]; intros ys Hpre Hx; simpl in *.
  - now rewrite Hx.
  - destruct (f p) as [e' | y]; [discriminate |]. simpl in *.
    destruct (comprehension f pre) as [e' | ys'] eqn:E; [discriminate |].
    now rewrite (IH ys' eq_refl Hx).
Qed.

Lemma required_str_inr kw name s :
  required_str kw name = inr s <-> kw !! name = Some (VStr s).
Proof.
  unfold required_str. destruct (kw !! name) as [[] |]; split; intros H;
    try discriminate; congruence.
Qed.

Lemma both_inr {A B} (a : list error + A) (b : list error + B) x y :
  both a b = inr (x, y) <-> a = inr x /\ b = inr y.
Proof.
  destruct a, b; simpl; split; try (intros [? ?]); try intros ?;
    try discriminate; try congruence.
  split; congruence.
Qed.

(** A stored item is read back as [x] exactly when it has the form
    [item_is] describes. *)
Lemma construct_item v x :
  (kw <- kwargs_of "schemas.MenuItem" v ;; construct kw) = inr x <-> item_is v x.
Proof.
  unfold item_is. split.
  - destruct v; try discriminate. cbn [kwargs_of bind ret]. unfold construct.
    cbn [validate MenuItem_model].
    destruct (both (required_str d "dish") (required_str d "type")) as [errs | [a b]] eqn:E;
      [discriminate |].
    intros [= <-]. apply both_inr in E as [Ha Hb].
    apply required_str_inr in Ha, Hb. exists d. cbn. auto.
  - intros (kw & -> & Hd & Ht). cbn [kwargs_of bind ret]. unfold construct.
    cbn [validate MenuItem_model].
    apply required_str_inr in Hd, Ht. rewrite Hd, Ht. cbn. now destruct x.
Qed.

Lemma serialize_menu_inr doc out :
  _serialize_menu doc = inr out ->
  doc !! "date" = Some (VStr (MenuOut.date out)) /\
  MenuOut.id out = str (default VNone (doc !! "_id")) /\
  exists vs, iter (default (VList []) (doc !! "items")) = inr vs /\
             Forall2 item_is vs (MenuOut.items out).
Proof.
  unfold _serialize_menu. intros H.
  destruct (iter (default (VList []) (doc !! "items"))) as [e | vs] eqn:Hiter;
    [discriminate |]. cbn [bind] in H.
  destruct (comprehension _ vs) as [e | xs] eqn:Hxs; [discriminate |]. cbn [bind] in H.
  unfold MenuOut_new in H.
  destruct (doc !! "date") as [[] |] eqn:Hd; cbn in H; try discriminate.
  injection H as <-. cbn. repeat split. exists vs. split; [reflexivity |].
  apply comprehension_inr in Hxs. eapply Forall2_impl; [exact Hxs |].
  intros v x Hv. now apply construct_item.
Qed.

End SerializeFacts.

Import SerializeFacts.

(** X1: a document whose date is a string and whose items, when present,
    are a list of dicts with string dish and type is serialized to the day
    with that date and these items in the same order; other keys of the
    document and of the items are ignored, absent items give the empty
    list, and the id is the text of the _id field (None when absent). *)
Theorem serialize_menu_accepts doc d vs xs :
  doc !! "date" = Some (VStr d) ->
  (doc !! "items" = None /\ vs = []) \/ doc !! "items" = Some (VList vs) ->
  Forall2 item_is vs xs ->
  _serialize_menu doc = inr (MenuOut.mk (str (default VNone (doc !! "_id"))) d xs).
Proof.
  intros Hd Hitems Hxs. unfold _serialize_menu. rewrite Hd.
  assert (Hiter : iter (default (VList []) (doc !! "items")) = inr vs).
  { destruct Hitems as [[-> ->] | ->]; reflexivity. }
  rewrite Hiter. cbn [bind].
  replace (comprehension _ vs) with (@inr exn _ xs); [reflexivity |].
  symmetry. apply comprehension_inr.
  eapply Forall2_impl; [exact Hxs |]. intros v x Hv. now apply construct_item.
Qed.

Lemma serialize_menu_accepts_witness :
  let doc : gmap string value :=
    <["created_at" := VInt 1700000000]> (<["date" := VStr "2024-01-01"]> ∅) in
  doc !! "date" = Some (VStr "2024-01-01") /\
  doc !! "items" = None /\
  _serialize_menu doc = inr (MenuOut.mk "None" "2024-01-01" []).
Proof.
  cbv zeta. split; [reflexivity |]. split; [reflexivity |].
  exact (serialize_menu_accepts
           (<["created_at" := VInt 1700000000]> (<["date" := VStr "2024-01-01"]> ∅))
           "2024-01-01" [] [] eq_refl (or_introl (conj eq_refl eq_refl)) (List.Forall2_nil _)).
Defined.

(** X2: whenever a document is serialized, the day's date is the string
    the document holds under date, its id is the text of the _id field, and
    its items are, one for one and in order, the dicts the document's items
    iterate to, each with string dish and type; so a document without a
    string date is never serialized. *)
Theorem serialize_menu_inversion doc out :
  _serialize_menu doc = inr out ->
  doc !! "date" = Some (VStr (MenuOut.date out)) /\
  MenuOut.id out = str (default VNone (doc !! "_id")) /\
  exists vs, iter (default (VList []) (doc !! "items")) = inr vs /\
             Forall2 item_is vs (MenuOut.items out).
Proof. exact (serialize_menu_inr doc out). Qed.

Lemma serialize_menu_inversion_witness :
  _serialize_menu (menu_doc 7 (CanteenMenuDay.mk "2024-01-01" [soupe]))
  = inr (menu_out 7 (CanteenMenuDay.mk "2024-01-01" [soupe])) /\
  menu_doc 7 (CanteenMenuDay.mk "2024-01-01" [soupe]) !! "date" = Some (VStr "2024-01-01").
Proof.
  assert (H : _serialize_menu (menu_doc 7 (CanteenMenuDay.mk "2024-01-01" [soupe]))
              = inr (menu_out 7 (CanteenMenuDay.mk "2024-01-01" [soupe])))
    by (vm_compute; reflexivity).
  split; [exact H |].
  exact (proj1 (serialize_menu_inversion _ _ H)).
Defined.

(** X3: whatever the store holds, a successful GET /api/menu?start&end
    returns one day per document among the first 100 stored documents in
    the range, in storage order, each day carrying its document's date; so
    every returned date lies between start and end, and there are at most
    100 days. *)
Theorem menu_range_days_in_range start end_ st outs :
  get_menu_range start end_ (Some st) = OK outs ->
  let found := take 100 (List.filter (in_date_range start end_) (menu_docs st)) in
  Forall2 (fun doc out => _serialize_menu doc = inr out /\
                          doc !! "date" = Some (VStr (MenuOut.date out))) found outs /\
  Forall (fun out => String.leb start (MenuOut.date out) = true /\
                     String.leb (MenuOut.date out) end_ = true) outs /\
  length outs <= 100.
Proof.
  intros H. cbv zeta. rewrite get_menu_range_available in H.
  set (found := take 100 (List.filter (in_date_range start end_) (menu_docs st))) in *.
  destruct (comprehension _serialize_menu found) as [e | outs'] eqn:Hc; [discriminate |].
  injection H as ->. apply comprehension_inr in Hc.
  assert (Hin : Forall (fun doc => in_date_range start end_ doc = true) found).
  { apply Forall_take. apply Forall_forall. intros doc Hdoc.
    apply list_elem_of_In in Hdoc. apply List.filter_In in Hdoc. tauto. }
  split; [| split].
  - eapply Forall2_impl; [exact Hc |]. intros doc out Hs. split; [exact Hs |].
    now apply serialize_menu_inr in Hs as [? _].
  - clear -Hc Hin. induction Hc as [| doc out docs outs Hs _ IH]; [constructor |].
    apply Forall_cons in Hin as [Hdoc Hin]. constructor; [| now apply IH].
    apply serialize_menu_inr in Hs as [Hd _].
    unfold in_date_range in Hdoc. rewrite Hd in Hdoc. now apply andb_true_iff in Hdoc.
  - rewrite <- (Forall2_length _ _ _ Hc). unfold found. rewrite length_take. lia.
Qed.

Lemma menu_range_days_in_range_witness :
  let db := post_times 2 (CanteenMenuDay.mk "2024-01-15" [soupe]) (Some empty_store) in
  exists st outs,
    db = Some st /\ get_menu_range "2024-01-01" "2024-01-31" db = OK outs /\
    Forall (fun out => String.leb "2024-01-01" (MenuOut.date out) = true /\
                       String.leb (MenuOut.date out) "2024-01-31" = true) outs.
Proof.
  cbv zeta.
  destruct (post_times 2 (CanteenMenuDay.mk "2024-01-15" [soupe]) (Some empty_store))
    as [st |] eqn:Hst; [| discriminate].
  destruct (get_menu_range "2024-01-01" "2024-01-31" (Some st)) as [outs | |] eqn:Hget;
    [| exfalso; revert Hget; injection Hst as <-; vm_compute; discriminate
     | exfalso; revert Hget; injection Hst as <-; vm_compute; discriminate].
  exists st, outs. split; [reflexivity |]. split; [reflexivity |].
  exact (proj1 (proj2 (menu_range_days_in_range _ _ _ _ Hget))).
Defined.

(** X4: GET /api/menu returns no partial result: when, among the first 100
    documents in the range, the documents before some document serialize
    and that one does not, the response is status 500 with the message of
    its failure, whatever follows it. *)
Theorem menu_range_fails_on_bad_document start end_ st pre doc post outs e :
  take 100 (List.filter (in_date_range start end_) (menu_docs st)) = pre ++ doc :: post ->
  comprehension _serialize_menu pre = inr outs ->
  _serialize_menu doc = inl e ->
  get_menu_range start end_ (Some st) = HTTPException 500 (str_exn e).
Proof.
  intros Hfound Hpre Hdoc. rewrite get_menu_range_available, Hfound.
  now rewrite (comprehension_inl _ _ _ _ _ _ Hpre Hdoc).
Qed.

Lemma menu_range_fails_on_bad_document_witness :
  let bad : gmap string value := <["date" := VStr "2024-01-02"]> (<["items" := VInt 3]> ∅) in
  let good := menu_doc 0 (CanteenMenuDay.mk "2024-01-01" [soupe]) in
  let st := mkdb (<["canteenmenuday" := [good; bad; good]]> ∅) 1 (rejects empty_store) in
  _serialize_menu bad = inl (TypeError "'int' object is not iterable") /\
  get_menu_range "2024-01-01" "2024-01-31" (Some st)
  = HTTPException 500 "'int' object is not iterable".
Proof.
  cbv zeta. split; [reflexivity |].
  apply (menu_range_fails_on_bad_document "2024-01-01" "2024-01-31" _
           [menu_doc 0 (CanteenMenuDay.mk "2024-01-01" [soupe])]
           (<["date" := VStr "2024-01-02"]> (<["items" := VInt 3]> ∅))
           [menu_doc 0 (CanteenMenuDay.mk "2024-01-01" [soupe])]
           [menu_out 0 (CanteenMenuDay.mk "2024-01-01" [soupe])]
           (TypeError "'int' object is not iterable"));
    vm_compute; reflexivity.
Defined.

Lemma filter_nil_Forall {A} (f : A -> bool) l :
  List.filter f l = [] -> Forall (fun x => f x = false) l.
Proof.
  induction l as [| x l IH]; [constructor |]. cbn.
  destruct (f x) eqn:E; [discriminate |]. intros H. constructor; auto.
Qed.

(** X5: with the store available, GET /api/menu/today returns null exactly
    when no document of the menu collection is dated today; a day it
    returns is dated today. *)
Theorem today_menu_null_iff now st :
  let today := strftime_Ymd (dt_date now) in
  (get_today_menu now (Some st) = OK None <->
   Forall (fun doc => has_date today doc = false) (menu_docs st)) /\
  (forall out, get_today_menu now (Some st) = OK (Some out) -> MenuOut.date out = today).
Proof.
  cbv zeta. rewrite get_today_menu_available.
  set (today := strftime_Ymd (dt_date now)).
  destruct (List.filter (has_date today) (menu_docs st)) as [| doc rest] eqn:Hf.
  - split; [| discriminate]. split; [| reflexivity]. intros _. now apply filter_nil_Forall.
  - assert (Hdoc : has_date today doc = true).
    { assert (Hin : In doc (List.filter (has_date today) (menu_docs st)))
        by (rewrite Hf; now left).
      apply List.filter_In in Hin. tauto. }
    cbn [take]. split.
    + split.
      * destruct (_serialize_menu doc); discriminate.
      * intros Hall. rewrite (filter_none _ _ Hall) in Hf. discriminate.
    + intros out H. destruct (_serialize_menu doc) as [e | out'] eqn:Hs; [discriminate |].
      injection H as <-. apply serialize_menu_inr in Hs as [Hd _].
      unfold has_date in Hdoc. rewrite Hd in Hdoc. now apply String.eqb_eq in Hdoc.
Qed.

Lemma today_menu_null_iff_witness :
  Forall (fun doc => has_date (strftime_Ymd (dt_date noon)) doc = false)
    (menu_docs empty_store) /\
  get_today_menu noon (Some empty_store) = OK None.
Proof.
  split; [constructor |].
  apply (proj1 (today_menu_null_iff noon empty_store)). constructor.
Defined.

(** X6: when a day dated today is posted with success to a store with no
    document dated today, GET /api/menu/today returns that day, with its
    items and under the identifier the POST returned, also after a later
    POST of another day, whatever that day is and whether or not its
    insert is rejected. *)
Theorem today_menu_returns_first_posted now st first second ok :
  Forall (fun doc => has_date (strftime_Ymd (dt_date now)) doc = false) (menu_docs st) ->
  CanteenMenuDay.date first = strftime_Ymd (dt_date now) ->
  fst (create_menu_day first (Some st)) = OK ok ->
  let out := MenuOut.mk (str_oid (next_oid st)) (CanteenMenuDay.date first)
               (CanteenMenuDay.items first) in
  ok = <["success" := VBool true]> (<["id" := VStr (str_oid (next_oid st))]> ∅) /\
  get_today_menu now (snd (create_menu_day first (Some st))) = OK (Some out) /\
  get_today_menu now
    (snd (create_menu_day second (snd (create_menu_day first (Some st)))))
  = OK (Some out).
Proof.
  intros Hnone Hfirst Hok. cbv zeta.
  pose proof (create_menu_day_ok first st ok Hok) as Hpost.
  rewrite Hpost in Hok. cbn [fst] in Hok. injection Hok as <-.
  rewrite Hpost. cbn [snd]. set (st1 := mkdb _ _ _).
  assert (Hst1 : menu_docs st1 = menu_docs st ++ [menu_doc (next_oid st) first])
    by apply menu_docs_inserted.
  assert (Hdate : has_date (strftime_Ymd (dt_date now)) (menu_doc (next_oid st) first) = true).
  { unfold has_date, menu_doc. cbn [model_dump CanteenMenuDay_model]. simplify_map_eq.
    rewrite Hfirst. apply String.eqb_refl. }
  split; [reflexivity |]. split.
  - rewrite get_today_menu_available, Hst1.
    rewrite (filter_first _ _ _ [] Hnone Hdate).
    cbn [take]. rewrite serialize_menu_doc. reflexivity.
  - destruct (create_menu_day_docs second st1) as (st2 & Hst2 & [-> | ->]); rewrite Hst2;
      rewrite get_today_menu_available.
    + rewrite Hst1, (filter_first _ _ _ [] Hnone Hdate).
      cbn [take]. rewrite serialize_menu_doc. reflexivity.
    + rewrite menu_docs_inserted, Hst1, <- app_assoc.
      change ([menu_doc (next_oid st) first] ++ [menu_doc (next_oid st1) second])
        with (menu_doc (next_oid st) first :: [menu_doc (next_oid st1) second]).
      rewrite (filter_first _ _ _ _ Hnone Hdate).
      cbn [take]. rewrite serialize_menu_doc. reflexivity.
Qed.

Lemma today_menu_returns_first_posted_witness :
  Forall (fun doc => has_date (strftime_Ymd (dt_date noon)) doc = false)
    (menu_docs empty_store) /\
  fst (create_menu_day (CanteenMenuDay.mk "2024-03-05" [soupe]) (Some empty_store))
  = OK (<["success" := VBool true]> (<["id" := VStr "000000000000000000000000"]> ∅)) /\
  get_today_menu noon
    (snd (create_menu_day (CanteenMenuDay.mk "2024-03-05" [])
            (snd (create_menu_day (CanteenMenuDay.mk "2024-03-05" [soupe])
                    (Some empty_store)))))
  = OK (Some (MenuOut.mk "000000000000000000000000" "2024-03-05" [soupe])).
Proof.
  split; [constructor |]. split; [reflexivity |].
  exact (proj2 (proj2 (today_menu_returns_first_posted noon empty_store
                         (CanteenMenuDay.mk "2024-03-05" [soupe])
                         (CanteenMenuDay.mk "2024-03-05" []) _
                         (List.Forall_nil _) eq_refl eq_refl))).
Defined.

(** X7: no request removes or changes a stored document: after any
    request the menu collection is what it was, followed by at most one
    new document; the other collections are untouched; and identifiers
    are not reused: when the stored documents carry identifiers the
    storage assigned, so do the documents after the request, and the
    identifier of a new document is that of no document stored before;
    an unavailable store stays unavailable. *)
Theorem app_keeps_documents now req :
  (forall st st',
     snd (app now req (Some st)) = Some st' ->
     (exists new,
        menu_docs st' = menu_docs st ++ new /\ length new <= 1 /\
        (ids_assigned st ->
         forall doc old, In doc new -> In old (menu_docs st) ->
                         doc !! "_id" <> old !! "_id")) /\
     (forall name, name <> "canteenmenuday" ->
                   collections st' !! name = collections st !! name) /\
     (next_oid st <= next_oid st')%N /\
     (ids_assigned st -> ids_assigned st')) /\
  snd (app now req None) = None.
Proof.
  split.
  - intros st st' Hst'.
    assert (Hsame : forall st0 : database,
               (exists new,
                  menu_docs st0 = menu_docs st0 ++ new /\ length new <= 1 /\
                  (ids_assigned st0 ->
                   forall doc old, In doc new -> In old (menu_docs st0) ->
                                   doc !! "_id" <> old !! "_id")) /\
               (forall name, name <> "canteenmenuday" ->
                             collections st0 !! name = collections st0 !! name) /\
               (next_oid st0 <= next_oid st0)%N /\
               (ids_assigned st0 -> ids_assigned st0)).
    { intros st0. split; [| split; [reflexivity | split; [lia | tauto]]].
      exists []. rewrite app_nil_r. split; [reflexivity |]. split; [cbn; lia |].
      intros _ doc old []. }
    destruct (app_store now req (Some st)) as [Heq | (b & p & _ & _ & Heq)];
      rewrite Heq in Hst'.
    + injection Hst' as <-. apply Hsame.
    + destruct (create_menu_day_docs p st) as (st'' & Hsnd & Hdocs).
      rewrite Hsnd in Hst'. injection Hst' as ->.
      destruct Hdocs as [-> | ->]; [apply Hsame |].
      split; [| split; [| split]].
      * exists [menu_doc (next_oid st) p]. split; [apply menu_docs_inserted |].
        split; [cbn; lia |].
        intros Hids doc old [<- | []] Hold.
        unfold ids_assigned in Hids. rewrite Forall_forall in Hids.
        apply list_elem_of_In in Hold.
        destruct (Hids old Hold) as (oid & -> & Hlt).
        unfold menu_doc. rewrite lookup_insert_eq. intros [= Hoid]. lia.
      * intros name Hname. cbn [collections]. now rewrite lookup_insert_ne.
      * cbn [next_oid]. lia.
      * intros Hids. unfold ids_assigned. rewrite menu_docs_inserted. cbn [next_oid].
        apply Forall_app. split.
        -- eapply Forall_impl; [exact Hids |]. cbn beta.
           intros doc (oid & Hoid & Hlt). exists oid. split; [exact Hoid | lia].
        -- constructor; [| constructor]. exists (next_oid st).
           split; [unfold menu_doc; now rewrite lookup_insert_eq | lia].
  - destruct (app_store now req None) as [Heq | (b & p & _ & _ & Heq)]; rewrite Heq;
      reflexivity.
Qed.

Lemma app_keeps_documents_witness :
  exists st', snd (app noon (POST_api_menu body_soupe) (Some empty_store)) = Some st' /\
              ids_assigned st' /\
              exists new, menu_docs st' = menu_docs empty_store ++ new /\ length new <= 1.
Proof.
  destruct (snd (app noon (POST_api_menu body_soupe) (Some empty_store))) as [st' |] eqn:H;
    [| exfalso; revert H; vm_compute; discriminate].
  exists st'. split; [reflexivity |].
  destruct (proj1 (app_keeps_documents noon (POST_api_menu body_soupe)) empty_store st' H)
    as ((new & Hnew & Hlen & _) & _ & _ & Hids).
  split; [apply Hids; constructor |]. exists new. auto.
Defined.

Module ValidationFacts.
Import Schemas Main Spec SerializeFacts.

Lemma at_loc_inr {A} loc (r : list error + A) x : at_loc loc r = inr x <-> r = inr x.
Proof. destruct r; simpl; split; intros H; try discriminate; congruence. Qed.

Lemma validate_item v x :
  validate_value (A := MenuItem.t) v = inr x <-> item_is v x.
Proof.
  unfold item_is, validate_value. split.
  - destruct v; try discriminate. cbn [validate MenuItem_model].
    destruct (both (required_str d "dish") (required_str d "type")) as [errs | [a b]] eqn:E;
      [discriminate |].
    intros [= <-]. apply both_inr in E as [Ha Hb].
    apply required_str_inr in Ha, Hb. exists d. cbn. auto.
  - intros (kw & -> & Hd & Ht). cbn [validate MenuItem_model].
    apply required_str_inr in Hd, Ht. rewrite Hd, Ht. cbn. now destruct x.
Qed.

Lemma validate_list_inr vs : forall i xs,
  validate_list (A := MenuItem.t) i vs = inr xs <-> Forall2 item_is vs xs.
Proof.
  induction vs as [| v vs IH]; intros i xs; cbn [validate_list].
  - split.
    + intros [= <-]. constructor.
    + intros H. apply Forall2_nil_inv_l in H as ->. reflexivity.
  - destruct (both (at_loc [str_nat i] (validate_value v)) (validate_list (S i) vs))
      as [errs | [y ys]] eqn:E.
    + split; [discriminate |]. intros H.
      apply Forall2_cons_inv_l in H as (y & ys & Hy & Hys & ->).
      apply validate_item in Hy. apply (IH (S i)) in Hys.
      rewrite Hy, Hys in E. discriminate.
    + apply both_inr in E as [Hy Hys]. apply at_loc_inr in Hy.
      apply validate_item in Hy. split.
      * intros [= <-]. constructor; [exact Hy | now apply (IH (S i))].
      * intros H. apply Forall2_cons_inv_l in H as (y' & ys' & Hy' & Hys' & ->).
        destruct Hy as (kw & -> & Hd & Ht), Hy' as (kw' & [= <-] & Hd' & Ht').
        assert (y' = y) as -> by (destruct y, y'; cbn in *; congruence).
        apply (IH (S i)) in Hys'. do 2 f_equal. congruence.
Qed.

End ValidationFacts.

Import ValidationFacts.

(** X8: a request body that is a dict validates as a CanteenMenuDay, and
    to the payload p, exactly when its date is the string of p and its
    items are either absent, p's items then being empty, or a list of
    dicts with string dish and type that are p's items in order; other
    keys are ignored. *)
Theorem menu_body_valid_iff d (p : CanteenMenuDay.t) :
  Body (VDict d) = inr p <->
  d !! "date" = Some (VStr (CanteenMenuDay.date p)) /\
  ((d !! "items" = None /\ CanteenMenuDay.items p = []) \/
   exists vs, d !! "items" = Some (VList vs) /\ Forall2 item_is vs (CanteenMenuDay.items p)).
Proof.
  unfold Body. rewrite at_loc_inr. unfold validate_value.
  cbn [validate CanteenMenuDay_model].
  destruct p as [date items]. cbn [CanteenMenuDay.date CanteenMenuDay.items].
  split.
  - destruct (both (required_str d "date") (items_field d)) as [errs | [a xs]] eqn:E;
      [discriminate |].
    intros [= -> ->]. apply both_inr in E as [Ha Hxs]. apply required_str_inr in Ha.
    split; [exact Ha |]. unfold items_field in Hxs.
    destruct (d !! "items") as [[] |]; try discriminate.
    + right. eexists. split; [reflexivity |]. apply at_loc_inr in Hxs.
      now apply validate_list_inr in Hxs.
    + left. split; [reflexivity | congruence].
  - intros [Hd Hitems]. apply required_str_inr in Hd. rewrite Hd.
    unfold items_field. destruct Hitems as [[-> ->] | (vs & -> & Hvs)]; [reflexivity |].
    apply (validate_list_inr vs 0) in Hvs. rewrite Hvs. reflexivity.
Qed.

Lemma menu_body_valid_iff_witness :
  let d : gmap string value := <["date" := VStr "lundi"]> (<["note" := VInt 1]> ∅) in
  d !! "date" = Some (VStr "lundi") /\ d !! "items" = None /\
  Body (VDict d) = inr (CanteenMenuDay.mk "lundi" []).
Proof.
  cbv zeta. split; [reflexivity |]. split; [reflexivity |].
  apply (proj2 (menu_body_valid_iff _ (CanteenMenuDay.mk "lundi" []))).
  split; [reflexivity |]. left. split; reflexivity.
Defined.

Module CredentialFacts.
Import Schemas Main Spec.

Lemma both_inl_l {A B} (a : list error + A) (b : list error + B) e errs :
  a = inl errs -> In e errs -> exists errs', both a b = inl errs' /\ In e errs'.
Proof.
  intros -> He. destruct b as [errs2 | y]; cbn; eexists; (split; [reflexivity |]).
  - apply in_or_app. now left.
  - assumption.
Qed.

Lemma both_inl_r {A B} (a : list error + A) (b : list error + B) e errs :
  b = inl errs -> In e errs -> exists errs', both a b = inl errs' /\ In e errs'.
Proof.
  intros -> He. destruct a as [errs1 | x]; cbn; eexists; (split; [reflexivity |]).
  - apply in_or_app. now right.
  - assumption.
Qed.

Lemma required_str_missing kw name :
  kw !! name = None -> required_str kw name = inl [([name], "Field required")].
Proof. unfold required_str. now intros ->. Qed.

Lemma credentials_missing kw field :
  In field ["url"; "username"; "password"] -> kw !! field = None ->
  exists errs, validate (A := PronoteCredentials.t) kw = inl errs /\
               In ([field], "Field required") errs.
Proof.
  intros Hfield Hmiss. cbn [validate PronoteCredentials_model].
  pose proof (required_str_missing kw field Hmiss) as Hreq.
  assert (H : exists errs,
             both (required_str kw "url")
                  (both (required_str kw "username") (required_str kw "password"))
             = inl errs /\ In ([field], "Field required") errs).
  { destruct Hfield as [<- | [<- | [<- | []]]].
    - eapply both_inl_l; [exact Hreq | now left].
    - edestruct (both_inl_l (required_str kw "username") (required_str kw "password"))
        as (errs & Hb & Hin); [exact Hreq | now left |].
      eapply both_inl_r; eassumption.
    - edestruct (both_inl_r (required_str kw "username") (required_str kw "password"))
        as (errs & Hb & Hin); [exact Hreq | now left |].
      eapply both_inl_r; eassumption. }
  destruct H as (errs & -> & Hin). eauto.
Qed.

Lemma with_period_missing {A} (mk : PronoteCredentials.t -> option string -> option string -> A)
    kw field :
  In field ["url"; "username"; "password"] -> kw !! field = None ->
  exists errs, at_loc ["body"] (with_period mk kw) = inl errs /\
               In (["body"; field], "Field required") errs.
Proof.
  intros Hfield Hmiss. destruct (credentials_missing kw field Hfield Hmiss) as (e1 & H1 & Hin1).
  destruct (both_inl_l (validate (A := PronoteCredentials.t) kw)
              (both (optional_str kw "start") (optional_str kw "end")) _ _ H1 Hin1)
    as (errs & Hb & Hin).
  unfold with_period. rewrite Hb. cbn [at_loc]. eexists. split; [reflexivity |].
  apply in_map_iff. exists ([field], "Field required"). split; [reflexivity | exact Hin].
Qed.

End CredentialFacts.

(** X9: the Pronote routes require the three credentials although the
    handlers never read them: a timetable or absences request whose body
    lacks url, username or password is answered with the validation errors,
    the missing field among them, without the handler being called and with
    the store left as it was. *)
Theorem pronote_credentials_required now kw db field :
  In field ["url"; "username"; "password"] -> kw !! field = None ->
  (exists errs,
     app now (POST_api_pronote_timetable (VDict kw)) db = (RequestValidationError errs, db) /\
     In (["body"; field], "Field required") errs) /\
  (exists errs,
     app now (POST_api_pronote_absences (VDict kw)) db = (RequestValidationError errs, db) /\
     In (["body"; field], "Field required") errs).
Proof.
  intros Hfield Hmiss. split.
  - destruct (CredentialFacts.with_period_missing
                (fun c s e => TimetableRequest.mk (PronoteCredentials.url c)
                                (PronoteCredentials.username c)
                                (PronoteCredentials.password c) s e) kw field Hfield Hmiss)
      as (errs & Hb & Hin).
    exists errs. split; [| exact Hin]. cbn [app]. unfold Body, validate_value.
    cbn [validate TimetableRequest_model]. now rewrite Hb.
  - destruct (CredentialFacts.with_period_missing
                (fun c s e => AbsencesRequest.mk (PronoteCredentials.url c)
                                (PronoteCredentials.username c)
                                (PronoteCredentials.password c) s e) kw field Hfield Hmiss)
      as (errs & Hb & Hin).
    exists errs. split; [| exact Hin]. cbn [app]. unfold Body, validate_value.
    cbn [validate AbsencesRequest_model]. now rewrite Hb.
Qed.

Lemma pronote_credentials_required_witness :
  let kw : gmap string value :=
    <["url" := VStr "https://pronote.example"]> (<["username" := VStr "eleve"]>
      (<["start" := VStr "2024-01-01"]> ∅)) in
  In "password" ["url"; "username"; "password"] /\ kw !! "password" = None /\
  exists errs,
    app noon (POST_api_pronote_timetable (VDict kw)) None = (RequestValidationError errs, None) /\
    In (["body"; "password"], "Field required") errs.
Proof.
  cbv zeta. split; [right; right; now left |]. split; [reflexivity |].
  apply (pronote_credentials_required noon _ None "password");
    [right; right; now left | reflexivity].
Defined.

Module PronoteDefaults.
Import Datetime Schemas Main Spec DatetimeFacts CalendarFacts TimetableFacts.

Lemma parse_effective now (o : option string) :
  valid_date (dt_date now) ->
  (if truthy o then strptime_Ymd (default "" o) else ret (dt_date now))
  = strptime_Ymd (effective now o).
Proof.
  intros Hnow. unfold effective. destruct (truthy o); [reflexivity |].
  now rewrite strptime_isoformat.
Qed.

Lemma truthy_effective now o : truthy (Some (effective now o)) = true.
Proof.
  unfold effective. destruct o as [[| c s] |]; reflexivity.
Qed.

Lemma get_pronote_timetable_effective now req :
  valid_date (dt_date now) ->
  get_pronote_timetable now req
  = try_except (d1 <- strptime_Ymd (effective now (TimetableRequest.start req)) ;;
                d2 <- strptime_Ymd (effective now (TimetableRequest.end_ req)) ;;
                timetable_loop (if date_ltb d2 d1 then d1 else d2) d1 0 []).
Proof.
  intros Hnow. unfold get_pronote_timetable.
  now rewrite !(parse_effective now _ Hnow).
Qed.

Lemma get_pronote_absences_effective now req :
  valid_date (dt_date now) ->
  get_pronote_absences now req
  = try_except (d <- strptime_Ymd (effective now (AbsencesRequest.start req)) ;;
                ret [AbsenceRecord.mk (strftime_Ymd d) "10:00" "12:00" false None]).
Proof.
  intros Hnow. unfold get_pronote_absences.
  now rewrite (parse_effective now _ Hnow).
Qed.

Lemma effective_idem now o : effective now (Some (effective now o)) = effective now o.
Proof. unfold effective at 1. now rewrite truthy_effective. Qed.

Lemma timetable_explicit_dates now url username password start end_ :
  valid_date (dt_date now) ->
  get_pronote_timetable now (TimetableRequest.mk url username password start end_)
  = get_pronote_timetable now
      (TimetableRequest.mk url username password (Some (effective now start))
         (Some (effective now end_))).
Proof.
  intros Hnow. rewrite !(get_pronote_timetable_effective now _ Hnow).
  cbn [TimetableRequest.start TimetableRequest.end_]. now rewrite !effective_idem.
Qed.

Lemma expected_entry_fields d i :
  TimetableEntry.date (expected_entry d i) = strftime_Ymd d /\
  TimetableEntry.start (expected_entry d i) = "08:00" /\
  TimetableEntry.end_ (expected_entry d i) = "09:30".
Proof. repeat split. Qed.

End PronoteDefaults.

Import PronoteDefaults.

(** X10: an absent or empty start is the same as start = today, and an
    absent or empty end is the same as end = today (not start): served at a
    time whose date is a valid date, a timetable or absences request gets
    the response of the request that spells these dates out. *)
Theorem pronote_dates_default_to_today now url username password start end_ :
  valid_date (dt_date now) ->
  get_pronote_timetable now (TimetableRequest.mk url username password start end_)
  = get_pronote_timetable now
      (TimetableRequest.mk url username password (Some (effective now start))
         (Some (effective now end_))) /\
  get_pronote_absences now (AbsencesRequest.mk url username password start end_)
  = get_pronote_absences now
      (AbsencesRequest.mk url username password (Some (effective now start)) end_).
Proof.
  intros Hnow. split.
  - now apply timetable_explicit_dates.
  - rewrite !(get_pronote_absences_effective now _ Hnow). cbn [AbsencesRequest.start].
    now rewrite effective_idem.
Qed.

Lemma pronote_dates_default_to_today_witness :
  valid_date (dt_date noon) /\
  get_pronote_timetable noon (TimetableRequest.mk "u" "n" "p" (Some "2024-03-04") None)
  = get_pronote_timetable noon
      (TimetableRequest.mk "u" "n" "p" (Some "2024-03-04") (Some "2024-03-05")).
Proof.
  assert (Hnow : valid_date (dt_date noon))
    by (unfold valid_date, MINYEAR, MAXYEAR; cbn; lia).
  split; [exact Hnow |].
  exact (proj1 (pronote_dates_default_to_today noon "u" "n" "p" (Some "2024-03-04") None Hnow)).
Defined.

(** X11: the timetable for any request, served at a time whose date is a
    valid date, when the dates in effect (today for an absent or empty
    parameter) parse to d1 and d2. With n the smaller of 10 and the number
    of days from d1 to the later of d1 and d2: if the n-th day is before
    9999-12-31, the response has n entries, on the consecutive days from
    d1, the entry at position i with the subject and room at index i mod 5
    and the slot 08:00 to 09:30; if the n-th day is 9999-12-31, the
    response is status 500. *)
Theorem timetable_response now req d1 d2 :
  valid_date (dt_date now) ->
  strptime_Ymd (effective now (TimetableRequest.start req)) = inr d1 ->
  strptime_Ymd (effective now (TimetableRequest.end_ req)) = inr d2 ->
  let last := if date_ltb d2 d1 then d1 else d2 in
  let n := Z.to_nat (Z.min 10 (toordinal last - toordinal d1 + 1)) in
  1 <= n <= 10 /\
  ((toordinal d1 + Z.of_nat n - 1 < toordinal max_date)%Z ->
   exists days,
     length days = n /\
     (forall (j : nat) d, days !! j = Some d ->
                          valid_date d /\ toordinal d = (toordinal d1 + Z.of_nat j)%Z) /\
     get_pronote_timetable now req = OK (imap (fun j d => expected_entry d j) days)) /\
  ((toordinal d1 + Z.of_nat n - 1 = toordinal max_date)%Z ->
   get_pronote_timetable now req = HTTPException 500 "date value out of range").
Proof.
  intros Hnow Hs He. destruct req as [url username password start end_].
  cbn [TimetableRequest.start TimetableRequest.end_] in Hs, He.
  rewrite (timetable_explicit_dates now url username password start end_ Hnow).
  exact (timetable_days now url username password _ _ d1 d2 Hs He).
Qed.

Lemma timetable_response_witness :
  valid_date (dt_date noon) /\
  strptime_Ymd (effective noon (Some "2024-03-03")) = inr (mkdate 2024 3 3) /\
  strptime_Ymd (effective noon None) = inr (mkdate 2024 3 5) /\
  exists days,
    length days = 3 /\
    get_pronote_timetable noon (TimetableRequest.mk "u" "n" "p" (Some "2024-03-03") None)
    = OK (imap (fun j d => expected_entry d j) days).
Proof.
  assert (Hnow : valid_date (dt_date noon))
    by (unfold valid_date, MINYEAR, MAXYEAR; cbn; lia).
  split; [exact Hnow |]. split; [reflexivity |]. split; [reflexivity |].
  destruct (timetable_response noon (TimetableRequest.mk "u" "n" "p" (Some "2024-03-03") None)
              (mkdate 2024 3 3) (mkdate 2024 3 5) Hnow eq_refl eq_refl) as (_ & Hok & _).
  destruct (Hok eq_refl) as (days & Hlen & _ & Hresp).
  exists days. split; [exact Hlen | exact Hresp].
Defined.

(** X12: a timetable request whose end in effect is before its start in
    effect (an end earlier than start, or a start after today with no end)
    gets exactly one entry, for the start day, unless that day is
    9999-12-31. *)
Theorem timetable_clamped_single_entry now req d1 d2 :
  valid_date (dt_date now) ->
  strptime_Ymd (effective now (TimetableRequest.start req)) = inr d1 ->
  strptime_Ymd (effective now (TimetableRequest.end_ req)) = inr d2 ->
  date_ltb d2 d1 = true -> d1 <> max_date ->
  get_pronote_timetable now req = OK [expected_entry d1 0].
Proof.
  intros Hnow Hs He Hlt Hne. destruct req as [url username password start end_].
  cbn [TimetableRequest.start TimetableRequest.end_] in Hs, He.
  rewrite (timetable_explicit_dates now url username password start end_ Hnow).
  exact (timetable_end_before_start now url username password _ _ d1 d2 Hs He Hlt Hne).
Qed.

Lemma timetable_clamped_single_entry_witness :
  valid_date (dt_date noon) /\
  date_ltb (mkdate 2024 3 5) (mkdate 2030 1 1) = true /\
  get_pronote_timetable noon (TimetableRequest.mk "u" "n" "p" (Some "2030-01-01") None)
  = OK [expected_entry (mkdate 2030 1 1) 0].
Proof.
  assert (Hnow : valid_date (dt_date noon))
    by (unfold valid_date, MINYEAR, MAXYEAR; cbn; lia).
  split; [exact Hnow |]. split; [reflexivity |].
  apply (timetable_clamped_single_entry noon
           (TimetableRequest.mk "u" "n" "p" (Some "2030-01-01") None)
           (mkdate 2030 1 1) (mkdate 2024 3 5) Hnow eq_refl eq_refl eq_refl).
  discriminate.
Defined.

(** X13: a timetable that is returned is never empty and never longer
    than 10 entries; its first entry is for the start day in effect, and
    every entry is from 08:00 to 09:30. *)
Theorem timetable_ok_bounds now req entries :
  valid_date (dt_date now) ->
  get_pronote_timetable now req = OK entries ->
  1 <= length entries <= 10 /\
  (exists d1, strptime_Ymd (effective now (TimetableRequest.start req)) = inr d1 /\
              entries !! 0 = Some (expected_entry d1 0)) /\
  Forall (fun entry => TimetableEntry.start entry = "08:00" /\
                       TimetableEntry.end_ entry = "09:30") entries.
Proof.
  intros Hnow Hok. destruct req as [url username password start end_].
  cbn [TimetableRequest.start].
  pose proof Hok as Hok'. rewrite (get_pronote_timetable_effective now _ Hnow) in Hok'.
  cbn [TimetableRequest.start TimetableRequest.end_] in Hok'.
  destruct (strptime_Ymd (effective now start)) as [e | d1] eqn:Hs; [discriminate |].
  destruct (strptime_Ymd (effective now end_)) as [e | d2] eqn:He; [discriminate |].
  clear Hok'. rewrite (timetable_explicit_dates now url username password start end_ Hnow) in Hok.
  destruct (timetable_days now url username password _ _ d1 d2 Hs He) as (Hn & Hlt & Heq).
  cbv zeta in Hn, Hlt, Heq.
  set (last := if date_ltb d2 d1 then d1 else d2) in *.
  set (n := Z.to_nat (Z.min 10 (toordinal last - toordinal d1 + 1))) in *.
  pose proof (proj1 (strptime_inr _ d1 Hs)) as Hd1.
  pose proof (proj1 (strptime_inr _ d2 He)) as Hd2.
  assert (Hlast : valid_date last) by (unfold last; now destruct (date_ltb d2 d1)).
  pose proof (toordinal_max last Hlast) as Hmax.
  destruct (Z.eq_dec (toordinal d1 + Z.of_nat n - 1)%Z (toordinal max_date)) as [E | E].
  { rewrite (Heq E) in Hok. discriminate. }
  destruct Hlt as (days & Hlen & Hdays & Hresp); [lia |].
  rewrite Hresp in Hok. injection Hok as <-. rewrite length_imap, Hlen.
  split; [exact Hn |]. split.
  - exists d1. split; [reflexivity |].
    destruct days as [| d days]; [cbn in Hlen; lia |].
    destruct (Hdays 0%nat d eq_refl) as [Hd Hord].
    assert (d = d1) as -> by (apply toordinal_inj; [assumption | assumption | lia]).
    reflexivity.
  - apply Forall_forall. intros entry Hin. apply list_elem_of_lookup in Hin as [i Hi].
    rewrite list_lookup_imap in Hi. destruct (days !! i); [| discriminate].
    injection Hi as <-. split; reflexivity.
Qed.

Lemma timetable_ok_bounds_witness :
  valid_date (dt_date noon) /\
  exists entries,
    get_pronote_timetable noon (TimetableRequest.mk "u" "n" "p" (Some "2000-01-01") None)
    = OK entries /\ 1 <= length entries <= 10.
Proof.
  assert (Hnow : valid_date (dt_date noon))
    by (unfold valid_date, MINYEAR, MAXYEAR; cbn; lia).
  split; [exact Hnow |].
  destruct (get_pronote_timetable noon
              (TimetableRequest.mk "u" "n" "p" (Some "2000-01-01") None))
    as [entries | c m | errs] eqn:H; [| exfalso; revert H; vm_compute; discriminate ..].
  exists entries. split; [reflexivity |].
  exact (proj1 (timetable_ok_bounds noon _ entries Hnow H)).
Defined.

(** X14: the outcomes of an absences request served at a time whose date
    is a valid date. A response with records has exactly one record, from
    10:00 to 12:00, not justified, dated with what strftime writes for the
    date d the start in effect parses to, which from year 1000 on is the
    zero-padded YYYY-MM-DD text of d; and a request with the YYYY-MM-DD
    text of d as start gets the same records at any time and with any
    end. An error response is status 500 with the message of the failure
    to parse a start that was given and not empty. *)
Theorem absences_outcomes now req :
  valid_date (dt_date now) ->
  (forall records,
     get_pronote_absences now req = OK records ->
     exists d, valid_date d /\
       strptime_Ymd (effective now (AbsencesRequest.start req)) = inr d /\
       records = [AbsenceRecord.mk (strftime_Ymd d) "10:00" "12:00" false None] /\
       ((1000 <= year d)%Z -> strftime_Ymd d = isoformat d) /\
       forall now' url username password end_,
         get_pronote_absences now'
           (AbsencesRequest.mk url username password (Some (isoformat d)) end_)
         = OK records) /\
  (forall status_code detail,
     get_pronote_absences now req = HTTPException status_code detail ->
     status_code = 500%Z /\ truthy (AbsencesRequest.start req) = true /\
     exists e, strptime_Ymd (default "" (AbsencesRequest.start req)) = inl e /\
               detail = str_exn e) /\
  (forall errors, get_pronote_absences now req <> RequestValidationError errors).
Proof.
  intros Hnow. rewrite (get_pronote_absences_effective now req Hnow).
  destruct (strptime_Ymd (effective now (AbsencesRequest.start req))) as [e | d] eqn:Hs;
    cbn [bind ret try_except].
  - split; [intros records H; discriminate |].
    split; [| intros errors H; discriminate].
    intros status_code detail H. injection H as <- <-.
    assert (Ht : truthy (AbsencesRequest.start req) = true).
    { unfold effective in Hs. destruct (truthy (AbsencesRequest.start req)); [reflexivity |].
      rewrite (strptime_isoformat _ Hnow) in Hs. discriminate. }
    split; [reflexivity |]. split; [exact Ht |]. exists e. split; [| reflexivity].
    unfold effective in Hs. now rewrite Ht in Hs.
  - split; [| split; [intros status_code detail H; discriminate
                     | intros errors H; discriminate]].
    intros records H. injection H as <-.
    pose proof (proj1 (strptime_inr _ d Hs)) as Hd.
    exists d. split; [exact Hd |]. split; [reflexivity |]. split; [reflexivity |].
    split; [apply strftime_isoformat |].
    intros now' url username password end_. unfold get_pronote_absences.
    cbn [AbsencesRequest.start]. rewrite isoformat_nonempty. cbn [default from_option id].
    now rewrite (strptime_isoformat d Hd).
Qed.

Lemma absences_outcomes_witness :
  valid_date (dt_date noon) /\
  get_pronote_absences noon (AbsencesRequest.mk "u" "n" "p" (Some "2024-3-5") None)
  = OK [AbsenceRecord.mk "2024-03-05" "10:00" "12:00" false None] /\
  get_pronote_absences noon (AbsencesRequest.mk "v" "m" "q" (Some "2024-03-05") (Some "x"))
  = OK [AbsenceRecord.mk "2024-03-05" "10:00" "12:00" false None].
Proof.
  assert (Hnow : valid_date (dt_date noon))
    by (unfold valid_date, MINYEAR, MAXYEAR; cbn; lia).
  split; [exact Hnow |]. split; [reflexivity |].
  destruct (proj1 (absences_outcomes noon
                     (AbsencesRequest.mk "u" "n" "p" (Some "2024-3-5") None) Hnow)
              _ eq_refl) as (d & _ & Hs & _ & _ & Hagain).
  assert (d = mkdate 2024 3 5) as -> by (vm_compute in Hs; congruence).
  exact (Hagain noon "v" "m" "q" (Some "x")).
Defined.

(** X15: whatever the state of the storage handle, the diagnostic object
    of /test has exactly the six keys backend, database, database_url,
    database_name, connection_status and collections; backend is Running,
    and database_url and database_name only tell whether the environment
    variables DATABASE_URL and DATABASE_NAME are set and not empty: the
    name of the database and the value Configured written for a connected
    handle are always overwritten. *)
Theorem test_database_reports_environment getenv db :
  let response := test_database getenv db in
  dom response = ({["backend"; "database"; "database_url"; "database_name";
                    "connection_status"; "collections"]} : gset string) /\
  response !! "backend" = Some (VStr "✅ Running") /\
  response !! "database_url"
  = Some (VStr (if truthy (getenv "DATABASE_URL") then "✅ Set" else "❌ Not Set")) /\
  response !! "database_name"
  = Some (VStr (if truthy (getenv "DATABASE_NAME") then "✅ Set" else "❌ Not Set")).
Proof.
  cbv zeta. unfold test_database.
  destruct db as [h |]; [destruct (list_collection_names h) as [e | names] |];
    (split; [rewrite !dom_insert_L, dom_empty_L; set_solver |]);
    repeat split; simplify_map_eq; reflexivity.
Qed.

(** The slice keeps a prefix of the message, and all of a message of at
    most 50 bytes. *)
Lemma take_chars_prefix n s : exists rest, s = Main.take_chars n s +:+ rest.
Proof.
  revert n. induction s as [| c s IH]; intros n; [now exists "" |].
  cbn [Main.take_chars]. destruct (Datetime.continuation c) as [x |].
  - destruct (IH n) as [rest Hrest]. exists rest.
    change (String c s = String c (Main.take_chars n s +:+ rest)). now f_equal.
  - destruct n as [| n]; [now exists (String c s) |].
    destruct (IH n) as [rest Hrest]. exists rest.
    change (String c s = String c (Main.take_chars n s +:+ rest)). now f_equal.
Qed.

Lemma take_chars_short n s : String.length s <= n -> Main.take_chars n s = s.
Proof.
  revert n. induction s as [| c s IH]; intros n Hn; [reflexivity |].
  cbn [String.length] in Hn. cbn [Main.take_chars].
  destruct (Datetime.continuation c) as [x |].
  - rewrite IH by lia. reflexivity.
  - destruct n as [| n]; [lia |]. rewrite IH by lia. reflexivity.
Qed.

(** X16: what /test reports of the handle. Without a handle: not
    connected, no collections. With a handle whose listing succeeds:
    connected and working, with the first 10 collection names in the
    order of the listing. With a handle whose listing fails with the
    message e: still connected, no collections, and in the database field
    the first 50 characters of e, which are a prefix of e and all of it
    when e has at most 50 bytes. In no case is the initial value Not
    Available of the database field reported. *)
Theorem test_database_reports_handle getenv db :
  let response := test_database getenv db in
  (db = None ->
   response !! "database" = Some (VStr "⚠️  Available but not initialized") /\
   response !! "connection_status" = Some (VStr "Not Connected") /\
   response !! "collections" = Some (VList [])) /\
  (forall h names,
     db = Some h -> list_collection_names h = inr names ->
     response !! "database" = Some (VStr "✅ Connected & Working") /\
     response !! "connection_status" = Some (VStr "Connected") /\
     response !! "collections" = Some (VList (map VStr (take 10 names))) /\
     length (take 10 names) <= 10) /\
  (forall h e,
     db = Some h -> list_collection_names h = inl e ->
     response !! "database"
     = Some (VStr ("⚠️  Connected but Error: " +:+ slice50 e)) /\
     (exists rest, e = slice50 e +:+ rest) /\
     (String.length e <= 50 -> slice50 e = e) /\
     response !! "connection_status" = Some (VStr "Connected") /\
     response !! "collections" = Some (VList [])) /\
  response !! "database" <> Some (VStr "❌ Not Available").
Proof.
  cbv zeta. unfold test_database. split; [| split; [| split]].
  - intros ->. repeat split; simplify_map_eq; reflexivity.
  - intros h names -> Hnames. rewrite Hnames.
    repeat split; simplify_map_eq; try reflexivity. rewrite length_take. lia.
  - intros h e -> He. rewrite He.
    split; [simplify_map_eq; reflexivity |].
    split; [apply take_chars_prefix |]. split; [apply take_chars_short |].
    split; simplify_map_eq; reflexivity.
  - destruct db as [h |]; [destruct (list_collection_names h) as [e | names] |];
      simplify_map_eq; discriminate.
Qed.

Lemma test_database_reports_handle_witness :
  let h := mkhandle (Some "lycee")
             (inr ["a"; "b"; "c"; "d"; "e"; "f"; "g"; "h"; "i"; "j"; "k"; "l"]) in
  let broken := mkhandle None (inl "échec de la connexion") in
  list_collection_names h = inr ["a"; "b"; "c"; "d"; "e"; "f"; "g"; "h"; "i"; "j"; "k"; "l"] /\
  test_database (fun _ => None) (Some h) !! "collections"
  = Some (VList (map VStr ["a"; "b"; "c"; "d"; "e"; "f"; "g"; "h"; "i"; "j"])) /\
  list_collection_names broken = inl "échec de la connexion" /\
  test_database (fun _ => None) (Some broken) !! "database"
  = Some (VStr "⚠️  Connected but Error: échec de la connexion").
Proof.
  cbv zeta. split; [reflexivity |]. split; [| split; [reflexivity |]].
  - exact (proj1 (proj2 (proj2
             (proj1 (proj2 (test_database_reports_handle (fun _ => None)
                              (Some (mkhandle (Some "lycee")
                                       (inr ["a"; "b"; "c"; "d"; "e"; "f"; "g"; "h"; "i"; "j";
                                             "k"; "l"])))))
                _ _ eq_refl eq_refl)))).
  - exact (proj1 (proj1 (proj2 (proj2 (test_database_reports_handle (fun _ => None)
                                         (Some (mkhandle None (inl "échec de la connexion"))))))
                    _ _ eq_refl eq_refl)).
Defined.

(** The slice counts characters, not bytes: of 60 two-byte characters it
    keeps 50, in 100 bytes. *)
Example slice50_counts_characters :
  let s := String.concat "" (repeat "é" 60) in
  String.length s = 120 /\ slice50 s = String.concat "" (repeat "é" 50) /\
  String.length (slice50 s) = 100.
Proof. repeat split. Qed.

(** X17: the two menu queries agree: when GET /api/menu with start and end
    both today succeeds, GET /api/menu/today returns the first day of its
    result, and null when the result is empty. *)
Theorem today_is_head_of_range now st outs :
  get_menu_range (strftime_Ymd (dt_date now)) (strftime_Ymd (dt_date now)) (Some st) = OK outs ->
  get_today_menu now (Some st) = OK (head outs).
Proof.
  rewrite get_menu_range_available, get_today_menu_available.
  rewrite (List.filter_ext _ _ (in_date_range_same (strftime_Ymd (dt_date now)))).
  destruct (List.filter (has_date (strftime_Ymd (dt_date now))) (menu_docs st))
    as [| doc rest]; cbn [take comprehension bind ret try_except].
  - intros [= <-]. reflexivity.
  - destruct (_serialize_menu doc) as [e | out]; cbn [bind]; [discriminate |].
    destruct (comprehension _serialize_menu (take 99 rest)) as [e | outs']; cbn [bind ret];
      [discriminate |].
    intros [= <-]. reflexivity.
Qed.

Lemma today_is_head_of_range_witness :
  let db := post_times 2 (CanteenMenuDay.mk "2024-03-05" [soupe]) (Some empty_store) in
  get_menu_range "2024-03-05" "2024-03-05" db
  = OK [MenuOut.mk "000000000000000000000000" "2024-03-05" [soupe]; MenuOut.mk "000000000000000000000001" "2024-03-05" [soupe]] /\
  get_today_menu noon db = OK (Some (MenuOut.mk "000000000000000000000000" "2024-03-05" [soupe])).
Proof.
  cbv zeta.
  assert (H : get_menu_range "2024-03-05" "2024-03-05"
                (post_times 2 (CanteenMenuDay.mk "2024-03-05" [soupe]) (Some empty_store))
              = OK [MenuOut.mk "000000000000000000000000" "2024-03-05" [soupe]; MenuOut.mk "000000000000000000000001" "2024-03-05" [soupe]])
    by (vm_compute; reflexivity).
  split; [exact H |].
  destruct (post_times 2 (CanteenMenuDay.mk "2024-03-05" [soupe]) (Some empty_store))
    as [st |] eqn:Hst; [| discriminate].
  exact (today_is_head_of_range noon st _ H).
Defined.
